(** * MoveGroupHelper: the probing helper of the Messtechnik-Praktikum robot

    A shallow embedding of [scripts/helper.py] (class [MoveGroupHelper]).

    The helper is glue code over three external services: the ROS clock
    ([rospy]), the MoveIt planning scene and the MoveIt move group.  The
    Python object and the services are modelled by one [State] record that
    is threaded through every call:

    - the attributes of [self] are the fields of [Self];
    - what the services answer is given by oracles in [Env] (the n-th
      clock reading, the n-th answer of [get_known_object_names], ...), so
      that statements quantify over every behaviour of the environment;
    - every call that leaves the helper is recorded in [trace], newest
      first.

    Python floats are modelled as exact rationals ([Q]); the [while] loop
    of [__wait_for_state_update] takes a fuel argument.  The helper's own
    calls leave the robot where it is: [execute] is recorded in the trace
    only, and [go_to_probing_pos], [go_home] and the demo [main] are not
    part of the model. *)

From Stdlib Require Import QArith Qabs Qround Lqa Lia List String Bool Arith.
Import ListNotations.

Local Open Scope Q_scope.
Local Open Scope string_scope.

(** ** Messages (geometry_msgs, shape_msgs, moveit_msgs) *)

Record Point := mkPoint { px : Q; py : Q; pz : Q }.

Record Quaternion := mkQuaternion { qx : Q; qy : Q; qz : Q; qw : Q }.

Record Pose := mkPose { position : Point; orientation : Quaternion }.

Record PoseStamped := mkPoseStamped { frame_id : string; pose : Pose }.

(** [shape_msgs.msg.SolidPrimitive]: [CYLINDER = 3], and the indices of a
    cylinder's dimensions are [CYLINDER_HEIGHT = 0], [CYLINDER_RADIUS = 1]. *)
Record SolidPrimitive := mkSolidPrimitive { type : nat; dimensions : list Q }.

Definition CYLINDER : nat := 3.
Definition CYLINDER_HEIGHT : nat := 0.
Definition CYLINDER_RADIUS : nat := 1.

Record OrientationConstraint := mkOrientationConstraint {
  oc_link_name : string;
  oc_frame_id : string;
  oc_orientation : Quaternion;
  absolute_x_axis_tolerance : Q;
  absolute_y_axis_tolerance : Q;
  absolute_z_axis_tolerance : Q;
  oc_weight : Q
}.

Record PositionConstraint := mkPositionConstraint {
  pc_link_name : string;
  pc_frame_id : string;
  target_point_offset : Point;
  constraint_region : list SolidPrimitive
}.

Record Constraints := mkConstraints {
  orientation_constraints : list OrientationConstraint;
  position_constraints : list PositionConstraint
}.

(** A default-constructed message has every number at zero. *)
Definition Point0 : Point := mkPoint 0 0 0.
Definition Quaternion0 : Quaternion := mkQuaternion 0 0 0 0.
Definition Pose0 : Pose := mkPose Point0 Quaternion0.

(** Comparison [a < b] on floats, as a boolean. *)
Definition Qltb (a b : Q) : bool := negb (Qle_bool b a).

(** [name in names] on a Python list of strings. *)
Definition mem (name : string) (names : list string) : bool :=
  existsb (String.eqb name) names.

(** [l[i] = v] on a Python list: inside the list the element is replaced
    (outside Python raises [IndexError]; the helper only writes inside). *)
Fixpoint list_set {A} (l : list A) (i : nat) (v : A) : list A :=
  match l, i with
  | [], _ => []
  | _ :: tl, O => v :: tl
  | hd :: tl, S j => hd :: list_set tl j v
  end.

(** [tf.transformations.quaternion_multiply(quaternion1, quaternion0)]
    (library function): the Hamilton product of two quaternions stored as
    [(x, y, z, w)]. *)
Definition quaternion_multiply (quaternion1 quaternion0 : Quaternion) : Quaternion :=
  let '(mkQuaternion x0 y0 z0 w0) := quaternion0 in
  let '(mkQuaternion x1 y1 z1 w1) := quaternion1 in
  mkQuaternion
    (x1 * w0 + y1 * z0 - z1 * y0 + w1 * x0)
    (- x1 * z0 + y1 * w0 + z1 * x0 + w1 * y0)
    (x1 * y0 - y1 * x0 + z1 * w0 + w1 * z0)
    (- x1 * x0 - y1 * y0 - z1 * z0 + w1 * w0).

(** ** The environment *)

(** A computed trajectory ([moveit_msgs.msg.RobotTrajectory]): the joints
    and the joint positions to pass through.  The helper only passes it
    on. *)
Record RobotTrajectory := mkRobotTrajectory {
  joint_names : list string;
  points : list (list Q)
}.

(** The calls that leave the helper, with what they were given and what
    they answered. *)
Inductive Event :=
| EGetTime (now : Q)
| EIsShutdown (flag : bool)
| ERospySleep (duration : Q)
| ETimeSleep (duration : Q)
| EKnownObjectNames (names : list string)
| EAddCylinder (name : string) (p : PoseStamped) (height radius : Q)
| EAddMesh (name : string) (p : PoseStamped) (filename : string)
| ERemoveAttachedObject (name : string)
| ERemoveWorldObject (name : string)
| EGetPlanningFrame (frame : string)
| EGetEndEffectorLink (link : string)
| EGetCurrentPose (link : string) (p : Pose)
| ESetPathConstraints (c : Constraints)
| EClearPathConstraints
| ESetMaxVelocityScalingFactor (f : Q)
| ESetMaxAccelerationScalingFactor (f : Q)
| EPlan
| EComputeCartesianPath (waypoints : list Pose) (eef_step jump_threshold : Q)
    (path_constraints : option Constraints) (plan : RobotTrajectory)
    (fraction : Q)
| EExecute (plan : RobotTrajectory) (wait : bool)
| EGetPath (package path : string).

(** What the services answer.  The n-th clock reading, the n-th answer of
    [is_shutdown] and of [get_known_object_names] are given once and for
    all; so are the robot's pose (the helper's own calls do not move the
    robot), the planner and the package index. *)
Record Env := mkEnv {
  (* rospy *)
  time_readings : nat -> Q;
  shutdown_flags : nat -> bool;
  (* planning scene *)
  known_object_names : nat -> list string;
  (* move group *)
  planning_frame_of : string;
  end_effector_link_of : string;
  current_pose : string -> Pose;
  cartesian_planner :
    list Pose -> Q -> Q -> option Constraints -> RobotTrajectory * Q;
  (* rospkg *)
  package_path : string -> string
}.

(** The services: the answers to come, how many have been consumed, the
    settings held by the move group, and every call made so far (newest
    first). *)
Record World := mkWorld {
  env : Env;
  time_reads : nat;
  shutdown_checks : nat;
  polls : nat;
  max_velocity_scaling_factor : Q;
  max_acceleration_scaling_factor : Q;
  path_constraints : option Constraints;
  trace : list Event
}.

(** The attributes of a [MoveGroupHelper] object.  [cartesian_constraints]
    is [None] while the attribute has never been assigned, [Some None] when
    it holds Python's [None]. *)
Record Self := mkSelf {
  planning_frame : string;
  eef_link : string;
  cylinder_pose : PoseStamped;
  cylinder_height : Q;
  cylinder_radius : Q;
  cylinder_name : string;
  hollow_cylinder_name : string;
  start_pose : Pose;
  cartesian_constraints : option (option Constraints)
}.

Record State := mkState { self : Self; world : World }.

Inductive Exn := AttributeError (attribute : string).

(** The outcome of a call: a value and the state after it, an exception, or
    a loop that was still running when the fuel ran out. *)
Inductive Result (A : Type) :=
| Ok (a : A) (s : State)
| Raised (e : Exn) (s : State)
| OutOfFuel.

Arguments Ok {A} a s.
Arguments Raised {A} e s.
Arguments OutOfFuel {A}.

Definition M (A : Type) : Type := State -> Result A.

Definition ret {A} (a : A) : M A := fun s => Ok a s.

Definition bind {A B} (m : M A) (k : A -> M B) : M B :=
  fun s =>
    match m s with
    | Ok a s' => k a s'
    | Raised e s' => Raised e s'
    | OutOfFuel => OutOfFuel
    end.

Definition raise {A} (e : Exn) : M A := fun s => Raised e s.

Notation "x <- m ;; k" := (bind m (fun x => k))
  (at level 100, m at next level, right associativity).
Notation "m ;; k" := (bind m (fun _ => k))
  (at level 100, right associativity).

(** The default of the parameter [end_effector_link] of
    [get_current_pose]: the empty string. *)
Definition default_link : string := EmptyString.

(** ** Calls into the services

    Each call answers from the oracle (or reads and writes the service's
    state) and records itself in the trace. *)

Definition record (e : Event) (w : World) : World :=
  mkWorld (env w) (time_reads w) (shutdown_checks w) (polls w)
    (max_velocity_scaling_factor w) (max_acceleration_scaling_factor w)
    (path_constraints w) (e :: trace w).

Definition next_time_reading (w : World) : World :=
  mkWorld (env w) (S (time_reads w)) (shutdown_checks w) (polls w)
    (max_velocity_scaling_factor w) (max_acceleration_scaling_factor w)
    (path_constraints w) (trace w).

Definition next_shutdown_check (w : World) : World :=
  mkWorld (env w) (time_reads w) (S (shutdown_checks w)) (polls w)
    (max_velocity_scaling_factor w) (max_acceleration_scaling_factor w)
    (path_constraints w) (trace w).

Definition next_poll (w : World) : World :=
  mkWorld (env w) (time_reads w) (shutdown_checks w) (S (polls w))
    (max_velocity_scaling_factor w) (max_acceleration_scaling_factor w)
    (path_constraints w) (trace w).

Definition with_velocity (f : Q) (w : World) : World :=
  mkWorld (env w) (time_reads w) (shutdown_checks w) (polls w)
    f (max_acceleration_scaling_factor w) (path_constraints w) (trace w).

Definition with_acceleration (f : Q) (w : World) : World :=
  mkWorld (env w) (time_reads w) (shutdown_checks w) (polls w)
    (max_velocity_scaling_factor w) f (path_constraints w) (trace w).

Definition with_path_constraints (c : option Constraints) (w : World) : World :=
  mkWorld (env w) (time_reads w) (shutdown_checks w) (polls w)
    (max_velocity_scaling_factor w) (max_acceleration_scaling_factor w)
    c (trace w).

(** Run a service call: [f] gives the answer and the world after it. *)
Definition call {A} (f : World -> A * World) : M A :=
  fun s => let (a, w) := f (world s) in Ok a (mkState (self s) w).

(** Assign to attributes of [self]. *)
Definition assign (f : Self -> Self) : M unit :=
  fun s => Ok tt (mkState (f (self s)) (world s)).

(** Read an attribute of [self]. *)
Definition attr {A} (f : Self -> A) : M A := fun s => Ok (f (self s)) s.

Module rospy.

Definition get_time : M Q :=
  call (fun w =>
    let now := time_readings (env w) (time_reads w) in
    (now, record (EGetTime now) (next_time_reading w))).

Definition is_shutdown : M bool :=
  call (fun w =>
    let flag := shutdown_flags (env w) (shutdown_checks w) in
    (flag, record (EIsShutdown flag) (next_shutdown_check w))).

Definition sleep (duration : Q) : M unit :=
  call (fun w => (tt, record (ERospySleep duration) w)).

End rospy.

(** [time.sleep]. *)
Definition sleep (duration : Q) : M unit :=
  call (fun w => (tt, record (ETimeSleep duration) w)).

(** [moveit_commander.PlanningSceneInterface].  [self.planning_scene] and
    the inherited [self.scene] are two handles on the one planning scene. *)
Module planning_scene.

Definition get_known_object_names : M (list string) :=
  call (fun w =>
    let names := known_object_names (env w) (polls w) in
    (names, record (EKnownObjectNames names) (next_poll w))).

Definition add_cylinder (name : string) (p : PoseStamped) (height radius : Q)
  : M unit :=
  call (fun w => (tt, record (EAddCylinder name p height radius) w)).

Definition add_mesh (name : string) (p : PoseStamped) (filename : string)
  : M unit :=
  call (fun w => (tt, record (EAddMesh name p filename) w)).

Definition remove_attached_object (name : string) : M unit :=
  call (fun w => (tt, record (ERemoveAttachedObject name) w)).

Definition remove_world_object (name : string) : M unit :=
  call (fun w => (tt, record (ERemoveWorldObject name) w)).

End planning_scene.

(** [moveit_commander.MoveGroupCommander], the inherited
    [self.move_group]. *)
Module move_group.

Definition get_planning_frame : M string :=
  call (fun w =>
    (planning_frame_of (env w), record (EGetPlanningFrame (planning_frame_of (env w))) w)).

Definition get_end_effector_link : M string :=
  call (fun w =>
    (end_effector_link_of (env w),
     record (EGetEndEffectorLink (end_effector_link_of (env w))) w)).

(** [get_current_pose(end_effector_link).pose]; called without argument
    it is given [default_link]. *)
Definition get_current_pose (link : string) : M Pose :=
  call (fun w =>
    (current_pose (env w) link, record (EGetCurrentPose link (current_pose (env w) link)) w)).

Definition set_path_constraints (c : Constraints) : M unit :=
  call (fun w =>
    (tt, record (ESetPathConstraints c) (with_path_constraints (Some c) w))).

Definition clear_path_constraints : M unit :=
  call (fun w =>
    (tt, record EClearPathConstraints (with_path_constraints None w))).

Definition set_max_velocity_scaling_factor (f : Q) : M unit :=
  call (fun w =>
    (tt, record (ESetMaxVelocityScalingFactor f) (with_velocity f w))).

Definition set_max_acceleration_scaling_factor (f : Q) : M unit :=
  call (fun w =>
    (tt, record (ESetMaxAccelerationScalingFactor f) (with_acceleration f w))).

Definition plan : M unit :=
  call (fun w => (tt, record EPlan w)).

Definition compute_cartesian_path (waypoints : list Pose)
    (eef_step jump_threshold : Q) (constraints : option Constraints)
  : M (RobotTrajectory * Q) :=
  call (fun w =>
    let answer := cartesian_planner (env w) waypoints eef_step jump_threshold constraints in
    (answer,
     record (EComputeCartesianPath waypoints eef_step jump_threshold
               constraints (fst answer) (snd answer)) w)).

Definition execute (plan : RobotTrajectory) (wait : bool) : M unit :=
  call (fun w => (tt, record (EExecute plan wait) w)).

End move_group.

(** [rospkg.RosPack().get_path]. *)
Definition rospack_get_path (package : string) : M string :=
  call (fun w =>
    (package_path (env w) package, record (EGetPath package (package_path (env w) package)) w)).

(** [os.path.join] of a directory and a file name. *)
Definition ends_with_slash (a : string) : bool :=
  match String.length a with
  | O => false
  | S n => String.eqb (String.substring n 1 a) "/"
  end.

Definition os_path_join (a b : string) : string :=
  if String.prefix "/" b then b
  else if (String.eqb a EmptyString || ends_with_slash a)%bool then a ++ b
  else a ++ "/" ++ b.

(** ** class MoveGroupHelper(helpy) *)

Module MoveGroupHelper.

(** Modelled from the spec: the base class [helpy] is not part of the
    sources; it provides the [move_group] and [scene] handles (here the
    services of the [World]) and sets no other attribute.  [blank] is the
    object before [__init__] has assigned anything of its own. *)
Definition blank : Self :=
  mkSelf EmptyString EmptyString (mkPoseStamped EmptyString Pose0) 0 0
    EmptyString EmptyString Pose0 None.

(** Reading [self.cartesian_constraints] raises [AttributeError] while
    the attribute has never been assigned. *)
Definition get_cartesian_constraints : M (option Constraints) :=
  fun s =>
    match cartesian_constraints (self s) with
    | Some c => Ok c s
    | None => Raised (AttributeError "cartesian_constraints") s
    end.

Definition with_cartesian_constraints (c : option Constraints) (o : Self)
  : Self :=
  mkSelf (planning_frame o) (eef_link o) (cylinder_pose o)
    (cylinder_height o) (cylinder_radius o) (cylinder_name o)
    (hollow_cylinder_name o) (start_pose o) (Some c).

Definition with_start_pose (p : Pose) (o : Self) : Self :=
  mkSelf (planning_frame o) (eef_link o) (cylinder_pose o)
    (cylinder_height o) (cylinder_radius o) (cylinder_name o)
    (hollow_cylinder_name o) p (cartesian_constraints o).

Definition set_cartesian_constraints (c : option Constraints) : M unit :=
  assign (with_cartesian_constraints c).

Definition set_start_pose (p : Pose) : M unit :=
  assign (with_start_pose p).

(** while (seconds - start < timeout) and not rospy.is_shutdown(): ... *)
Fixpoint wait_loop (fuel : nat) (cylinder_name : string)
    (cylinder_is_known : bool) (timeout start seconds : Q) : M bool :=
  match fuel with
  | O => fun _ => OutOfFuel
  | S fuel' =>
      if Qltb (seconds - start) timeout then
        shutdown <- rospy.is_shutdown ;;
        if negb shutdown then
          names <- planning_scene.get_known_object_names ;;
          let is_known := mem cylinder_name names in
          if Bool.eqb cylinder_is_known is_known then ret true
          else
            rospy.sleep 0.1 ;;
            seconds <- rospy.get_time ;;
            wait_loop fuel' cylinder_name cylinder_is_known timeout start seconds
        else ret false
      else ret false
  end.

(** Waits for planning scene to update or times out after given timeout. *)
Definition __wait_for_state_update (fuel : nat) (cylinder_name : string)
    (cylinder_is_known : bool) (timeout : Q) : M bool :=
  start <- rospy.get_time ;;
  seconds <- rospy.get_time ;;
  wait_loop fuel cylinder_name cylinder_is_known timeout start seconds.

(** Add cylinder to planning scene (default [timeout=10]). *)
Definition __add_cylinder (fuel : nat) (timeout : Q) : M bool :=
  name <- attr cylinder_name ;;
  p <- attr cylinder_pose ;;
  height <- attr cylinder_height ;;
  radius <- attr cylinder_radius ;;
  planning_scene.add_cylinder name p height radius ;;
  __wait_for_state_update fuel name true timeout.

(** Calculate target link orientation relative to reference link
    orientation.  (As in the source, the variable called
    [reference_orientation] is read from [target_link_name] and the other
    one from [reference_link_name].) *)
Definition __get_relative_orientation (target_link_name reference_link_name : string)
  : M Quaternion :=
  reference_pose <- move_group.get_current_pose target_link_name ;;
  let reference_orientation := orientation reference_pose in
  let reference_orientation_inverted :=
    mkQuaternion (qx reference_orientation) (qy reference_orientation)
      (qz reference_orientation) (- qw reference_orientation) in
  target_pose <- move_group.get_current_pose reference_link_name ;;
  let target_orientation_msg := orientation target_pose in
  let target_orientation :=
    mkQuaternion (qx target_orientation_msg) (qy target_orientation_msg)
      (qz target_orientation_msg) (qw target_orientation_msg) in
  let relative_orientation :=
    quaternion_multiply reference_orientation_inverted target_orientation in
  ret (mkQuaternion (qx relative_orientation) (qy relative_orientation)
         (qz relative_orientation) (qw relative_orientation)).

(** Create orientation constraints that lock robots current end effector
    orientation. *)
Definition __get_orientation_constraints : M OrientationConstraint :=
  relative_orientation_msg <- __get_relative_orientation "axis_6" "axis_0" ;;
  ret (mkOrientationConstraint "axis_6" "axis_0" relative_orientation_msg
         0.1 0.1 0.1 1.0).

(** Create position constraints. *)
Definition __get_position_constraints : M PositionConstraint :=
  let dimensions := [0; 0] in
  let dimensions := list_set dimensions CYLINDER_HEIGHT 1 in
  let dimensions := list_set dimensions CYLINDER_RADIUS 0.01 in
  let bounding_region := mkSolidPrimitive CYLINDER dimensions in
  ret (mkPositionConstraint "axis_6" "axis_0" (mkPoint 0 0 0.5)
         ([] ++ [bounding_region])).

(** Apply motion constraints (orientation and position). *)
Definition __apply_constraints : M unit :=
  orientation_constraint <- __get_orientation_constraints ;;
  position_constraint <- __get_position_constraints ;;
  let constraints :=
    mkConstraints ([] ++ [orientation_constraint]) ([] ++ [position_constraint]) in
  move_group.set_path_constraints constraints ;;
  set_cartesian_constraints (Some constraints).

(** Clear motion constraints. *)
Definition __clear_constraints : M unit :=
  set_cartesian_constraints None ;;
  move_group.clear_path_constraints.

(** Remove cylinder from planning scene (default [timeout=4]). *)
Definition __remove_cylinder (fuel : nat) (timeout : Q) : M bool :=
  name <- attr cylinder_name ;;
  __wait_for_state_update fuel name true timeout ;;
  planning_scene.remove_attached_object name ;;
  planning_scene.remove_world_object name ;;
  __wait_for_state_update fuel name false timeout.

(** Add hollow cylinder to planning scene.  The result of the wait is
    dropped: the method returns [None]. *)
Definition __add_hollow_cylinder (fuel : nat) : M unit :=
  p <- attr cylinder_pose ;;
  let cylinder_pose :=
    mkPoseStamped (frame_id p)
      (mkPose
         (mkPoint (px (position (pose p))) (py (position (pose p)))
            (pz (position (pose p)) - 0.035))
         (orientation (pose p))) in
  package <- rospack_get_path "messtechnik_praktikum" ;;
  let filename := os_path_join package "stl/hollow_cylinder.stl" in
  name <- attr hollow_cylinder_name ;;
  planning_scene.add_mesh name cylinder_pose filename ;;
  __wait_for_state_update fuel name true 4 ;;
  ret tt.

(** Remove the hollow cylinder from the planning scene. *)
Definition __remove_hollow_cylinder (fuel : nat) : M bool :=
  hollow <- attr hollow_cylinder_name ;;
  planning_scene.remove_world_object hollow ;;
  __wait_for_state_update fuel hollow false 4 ;;
  name <- attr cylinder_name ;;
  __wait_for_state_update fuel name false 4.

(** Enable probing, which allows the robot to pierce the cylinder from
    the top and imposes motion constraints. *)
Definition enable_probing (fuel : nat) : M unit :=
  __apply_constraints ;;
  __add_hollow_cylinder fuel ;;
  __remove_cylinder fuel 4 ;;
  move_group.set_max_velocity_scaling_factor 0.01 ;;
  move_group.set_max_acceleration_scaling_factor 0.1.

(** Disable probing. *)
Definition disable_probing (fuel : nat) : M unit :=
  __add_cylinder fuel 10 ;;
  __remove_hollow_cylinder fuel ;;
  __clear_constraints ;;
  move_group.set_max_velocity_scaling_factor 0.8 ;;
  move_group.set_max_acceleration_scaling_factor 1.

(** The waypoint list of [plan_probing]: one copy of the current pose,
    moved by [z] along the z axis. *)
Definition probing_waypoints (current : Pose) (z : Q) : list Pose :=
  let waypoints := [] in
  let wpose :=
    mkPose
      (mkPoint (px (position current)) (py (position current))
         (pz (position current) + z))
      (orientation current) in
  waypoints ++ [wpose].

(** Plan cartesian motion for probing, where z defines the vertical
    motion (default [z = -0.1]). *)
Definition plan_probing (z : Q) : M (RobotTrajectory * Q) :=
  current <- move_group.get_current_pose default_link ;;
  let waypoints := probing_waypoints current z in
  move_group.plan ;;
  constraints <- get_cartesian_constraints ;;
  move_group.compute_cartesian_path waypoints 0.01 0.0 constraints.

(** Execute given plan. *)
Definition execute_plan (plan : RobotTrajectory) : M unit :=
  move_group.execute plan true.

(** Constructor.  The base class [helpy] supplies the [move_group] and
    [scene] handles, which are the services of the [World]. *)
Definition __init__ (fuel : nat) : M unit :=
  frame <- move_group.get_planning_frame ;;
  link <- move_group.get_end_effector_link ;;
  assign (fun _ =>
    mkSelf frame link
      (mkPoseStamped "world" (mkPose (mkPoint 0.3 0 0.035) (mkQuaternion 0 0 0 1.0)))
      0.08 0.04 "full_cylinder" "hollow_cylinder" Pose0 None) ;;
  sleep 5 ;;
  p <- move_group.get_current_pose default_link ;;
  set_start_pose p ;;
  __add_cylinder fuel 10 ;;
  ret tt.

(** [MoveGroupHelper()]: a fresh object, constructed in the world [w]. *)
Definition new (fuel : nat) (w : World) : Result unit :=
  __init__ fuel (mkState blank w).

End MoveGroupHelper.

(** ** Vocabulary of the statements *)

Import MoveGroupHelper.

(** [m] returns [a] in state [s']: it does so with every large enough
    fuel. *)
Definition returns {A} (m : nat -> M A) (s : State) (a : A) (s' : State) : Prop :=
  exists fuel0, forall fuel, (fuel0 <= fuel)%nat -> m fuel s = Ok a s'.

(** The calls in the order they were made. *)
Definition history (s : State) : list Event := rev (trace (world s)).

(** The calls that only observe: clock, shutdown flag, sleep, scene query. *)
Definition observation (e : Event) : bool :=
  match e with
  | EGetTime _ | EIsShutdown _ | ERospySleep _ | EKnownObjectNames _ => true
  | _ => false
  end.

(** The calls that change the planning scene. *)
Definition scene_change (e : Event) : bool :=
  match e with
  | EAddCylinder _ _ _ _ | EAddMesh _ _ _
  | ERemoveAttachedObject _ | ERemoveWorldObject _ => true
  | _ => false
  end.

Definition scene_changes (t : list Event) : list Event := filter scene_change t.

(** [s'] is reached from [s] by observing only: the object, the answers to
    come and the move group's settings are the same. *)
Record quiet (s s' : State) : Prop := mkQuiet {
  quiet_self : self s' = self s;
  quiet_env : env (world s') = env (world s);
  quiet_velocity :
    max_velocity_scaling_factor (world s') = max_velocity_scaling_factor (world s);
  quiet_acceleration :
    max_acceleration_scaling_factor (world s')
    = max_acceleration_scaling_factor (world s);
  quiet_constraints : path_constraints (world s') = path_constraints (world s);
  quiet_trace :
    exists new : list Event,
      trace (world s') = (new ++ trace (world s))%list
      /\ forallb observation new = true
}.

(** [s'] differs from [s] in the counters and the trace only. *)
Record kept (s s' : State) : Prop := mkKept {
  kept_self : self s' = self s;
  kept_env : env (world s') = env (world s);
  kept_velocity :
    max_velocity_scaling_factor (world s') = max_velocity_scaling_factor (world s);
  kept_acceleration :
    max_acceleration_scaling_factor (world s')
    = max_acceleration_scaling_factor (world s);
  kept_constraints : path_constraints (world s') = path_constraints (world s)
}.

(** The clock passes every deadline, and it does not run backwards. *)
Definition clock_unbounded (e : Env) : Prop :=
  forall k T, exists n, T <= time_readings e (k + n).

Definition clock_monotone (e : Env) : Prop :=
  forall i j, (i <= j)%nat -> time_readings e i <= time_readings e j.

(** A wait entered in state [s] reads [start], and then tests its loop
    condition for the k-th time on the reading number [1 + k], the k-th
    shutdown flag and the k-th answer of the scene. *)
Definition elapsed (s : State) (k : nat) : Q :=
  time_readings (env (world s)) (time_reads (world s) + 1 + k)
  - time_readings (env (world s)) (time_reads (world s)).

Definition in_time (s : State) (timeout : Q) (k : nat) : Prop :=
  elapsed s k < timeout.

Definition alive (s : State) (k : nat) : Prop :=
  shutdown_flags (env (world s)) (shutdown_checks (world s) + k) = false.

Definition observed (s : State) (name : string) (expected : bool) (k : nat) : Prop :=
  mem name (known_object_names (env (world s)) (polls (world s) + k)) = expected.

(** The k-th membership check is made: the loop condition held k+1 times
    and the k checks before it did not see the expected state. *)
Definition poll_made (s : State) (name : string) (expected : bool) (timeout : Q)
    (k : nat) : Prop :=
  (forall j, (j <= k)%nat -> in_time s timeout j /\ alive s j)
  /\ (forall j, (j < k)%nat -> ~ observed s name expected j).

(** How many membership checks were made between two states. *)
Definition checks_made (s s' : State) : nat := polls (world s') - polls (world s).

(** The state in which the loop of a wait entered in [s0] tests its
    condition for the i-th time. *)
Definition at_test (s0 : State) (i : nat) (s : State) : Prop :=
  env (world s) = env (world s0)
  /\ time_reads (world s) = (time_reads (world s0) + 2 + i)%nat
  /\ shutdown_checks (world s) = (shutdown_checks (world s0) + i)%nat
  /\ polls (world s) = (polls (world s0) + i)%nat.

(** The state in which the loop of a wait entered in [s] starts: two clock
    readings have been taken. *)
Definition after_two_readings (s : State) : State :=
  mkState (self s)
    (record (EGetTime (time_readings (env (world s)) (S (time_reads (world s)))))
       (next_time_reading
          (record (EGetTime (time_readings (env (world s)) (time_reads (world s))))
             (next_time_reading (world s))))).

(** The states between the calls of the helper's methods. *)
Definition after_add_cylinder (s : State) : State :=
  mkState (self s)
    (record
       (EAddCylinder (cylinder_name (self s)) (cylinder_pose (self s))
          (cylinder_height (self s)) (cylinder_radius (self s)))
       (world s)).

Definition after_remove_calls (s : State) : State :=
  mkState (self s)
    (record (ERemoveWorldObject (cylinder_name (self s)))
       (record (ERemoveAttachedObject (cylinder_name (self s))) (world s))).

Definition set_scaling (velocity acceleration : Q) (s : State) : State :=
  mkState (self s)
    (record (ESetMaxAccelerationScalingFactor acceleration)
       (with_acceleration acceleration
          (record (ESetMaxVelocityScalingFactor velocity)
             (with_velocity velocity (world s))))).

Definition after_clear_constraints (s : State) : State :=
  mkState (with_cartesian_constraints None (self s))
    (record EClearPathConstraints (with_path_constraints None (world s))).

(** More fuel does not change what [m] returns. *)
Definition monotone {A} (m : nat -> M A) : Prop :=
  forall fuel s a s' fuel',
    m fuel s = Ok a s' -> (fuel <= fuel')%nat -> m fuel' s = Ok a s'.

(** No scene query in [t] answered with [name] among the known objects. *)
Definition never_known (name : string) (t : list Event) : bool :=
  forallb
    (fun e =>
       match e with
       | EKnownObjectNames names => negb (mem name names)
       | _ => true
       end) t.

(** The state in which [plan_probing z] asks for the Cartesian path. *)
Definition before_cartesian_path (s : State) : State :=
  mkState (self s)
    (record EPlan
       (record (EGetCurrentPose default_link (current_pose (env (world s)) default_link)) (world s))).

(** Equality of quaternions, component by component; the conjugate and the
    opposite of a quaternion.  A unit quaternion and its opposite stand for
    the same rotation, and the conjugate for the inverse rotation. *)
Definition quaternion_eq (a b : Quaternion) : Prop :=
  qx a == qx b /\ qy a == qy b /\ qz a == qz b /\ qw a == qw b.

Definition quaternion_conjugate (q : Quaternion) : Quaternion :=
  mkQuaternion (- qx q) (- qy q) (- qz q) (qw q).

Definition quaternion_opposite (q : Quaternion) : Quaternion :=
  mkQuaternion (- qx q) (- qy q) (- qz q) (- qw q).

(** In the history [h], every call [e] comes after a scene query that
    answered with [name] among the known objects. *)
Definition confirmed_before (name : string) (e : Event) (h : list Event) : Prop :=
  forall pre post,
    h = (pre ++ e :: post)%list ->
    exists names, In (EKnownObjectNames names) pre /\ mem name names = true.

(** ** Worlds to run the helper in *)

(** One second passes between two clock readings, the node is never shut
    down, the robot stands still at height 0.30 with the identity
    orientation, and the scene answers with [names]. *)
Definition lab_env (names : nat -> list string) : Env :=
  mkEnv (fun k => inject_Z (Z.of_nat k)) (fun _ => false) names
    "world" "axis_6"
    (fun _ => mkPose (mkPoint 0.2 0.1 0.30) (mkQuaternion 0 0 0 1))
    (fun _ _ _ _ => (mkRobotTrajectory ["axis_1"] [[0]], 1))
    (fun _ => "/opt/ros/messtechnik_praktikum").

Definition lab_world (names : nat -> list string) (velocity acceleration : Q)
  : World :=
  mkWorld (lab_env names) 0 0 0 velocity acceleration None [].

(** A scene in which nothing ever shows up, one that knows both cylinders
    all the time, and one in which the solid cylinder shows up at the third
    query. *)
Definition empty_scene : nat -> list string := fun _ => [].
Definition late_scene : nat -> list string :=
  fun k => if (k <? 2)%nat then [] else ["full_cylinder"].
Definition full_scene : nat -> list string :=
  fun _ => ["full_cylinder"; "hollow_cylinder"].

(** The object as [__init__] leaves it. *)
Definition constructed : Self :=
  mkSelf "world" "axis_6"
    (mkPoseStamped "world" (mkPose (mkPoint 0.3 0 0.035) (mkQuaternion 0 0 0 1.0)))
    0.08 0.04 "full_cylinder" "hollow_cylinder"
    (mkPose (mkPoint 0.2 0.1 0.30) (mkQuaternion 0 0 0 1)) None.

(** A constructed helper in a lab world. *)
Definition lab_state (names : nat -> list string) (velocity acceleration : Q)
  : State :=
  mkState constructed (lab_world names velocity acceleration).

(** The same helper once [self.cartesian_constraints] holds [None], as
    [disable_probing] leaves it. *)
Definition lab_state_cleared (names : nat -> list string)
    (velocity acceleration : Q) : State :=
  mkState (with_cartesian_constraints None constructed)
    (lab_world names velocity acceleration).

(** ** Vocabulary of the further properties *)

(** The calls of [rospy.sleep] in a trace. *)
Definition is_sleep (e : Event) : bool :=
  match e with
  | ERospySleep _ => true
  | _ => false
  end.

Definition count_sleeps (t : list Event) : nat :=
  List.length (filter is_sleep t).

(** [1] when a wait answered true, [0] when it answered false: the last
    membership check of a successful wait is not followed by a sleep. *)
Definition hit (b : bool) : nat := if b then 1%nat else 0%nat.

(** For a wait entered in [s]: the clock does not run backwards between
    the two readings taken before the loop, and every [rospy.sleep(0.1)] of
    the loop lets at least a tenth of a second pass before the next
    reading. *)
Definition first_readings_ordered (s : State) : Prop :=
  time_readings (env (world s)) (time_reads (world s))
  <= time_readings (env (world s)) (time_reads (world s) + 1).

Definition sleep_advances (s : State) : Prop :=
  forall k,
    time_readings (env (world s)) (time_reads (world s) + 1 + k) + 0.1
    <= time_readings (env (world s)) (time_reads (world s) + 2 + k).

(** The scene answers every query with [name] among the known objects. *)
Definition always_known (e : Env) (name : string) : Prop :=
  forall k, mem name (known_object_names e k) = true.

(** [self.cartesian_constraints] holds what the move group has as its
    path constraints. *)
Definition in_sync (s : State) : Prop :=
  cartesian_constraints (self s) = Some (path_constraints (world s)).

(** The state in which [__add_hollow_cylinder] starts its wait. *)
Definition after_add_mesh (s : State) : State :=
  mkState (self s)
    (record
       (EAddMesh (hollow_cylinder_name (self s))
          (mkPoseStamped (frame_id (cylinder_pose (self s)))
             (mkPose
                (mkPoint (px (position (pose (cylinder_pose (self s)))))
                   (py (position (pose (cylinder_pose (self s)))))
                   (pz (position (pose (cylinder_pose (self s)))) - 0.035))
                (orientation (pose (cylinder_pose (self s))))))
          (os_path_join (package_path (env (world s)) "messtechnik_praktikum")
             "stl/hollow_cylinder.stl"))
       (record
          (EGetPath "messtechnik_praktikum"
             (package_path (env (world s)) "messtechnik_praktikum"))
          (world s))).

(** The state in which [__remove_hollow_cylinder] starts its first wait. *)
Definition after_remove_hollow_call (s : State) : State :=
  mkState (self s)
    (record (ERemoveWorldObject (hollow_cylinder_name (self s))) (world s)).

(** The object [__init__] builds in the world [w], and the state in which
    it calls [__add_cylinder]. *)
Definition initial_self (w : World) : Self :=
  mkSelf (planning_frame_of (env w)) (end_effector_link_of (env w))
    (mkPoseStamped "world" (mkPose (mkPoint 0.3 0 0.035) (mkQuaternion 0 0 0 1.0)))
    0.08 0.04 "full_cylinder" "hollow_cylinder"
    (current_pose (env w) default_link) None.

Definition after_init_calls (w : World) : State :=
  mkState (initial_self w)
    (record (EGetCurrentPose default_link (current_pose (env w) default_link))
       (record (ETimeSleep 5)
          (record (EGetEndEffectorLink (end_effector_link_of (env w)))
             (record (EGetPlanningFrame (planning_frame_of (env w))) w)))).

(** A lab world whose node has been shut down. *)
Definition stopped_state (names : nat -> list string) : State :=
  mkState constructed
    (mkWorld
       (mkEnv (fun k => inject_Z (Z.of_nat k)) (fun _ => true) names
          "world" "axis_6"
          (fun _ => mkPose (mkPoint 0.2 0.1 0.30) (mkQuaternion 0 0 0 1))
          (fun _ _ _ _ => (mkRobotTrajectory ["axis_1"] [[0]], 1))
          (fun _ => "/opt/ros/messtechnik_praktikum"))
       0 0 0 0.8 1 None []).

(** The constraint set of [__apply_constraints] when the relative
    orientation of axis_6 with respect to axis_0 is [q]: one orientation
    constraint that holds axis_6 at [q] in the frame of axis_0, 0.1 about
    each axis, weight 1.0, and one position constraint with a cylinder of
    height 1 and radius 0.01 as its region. *)
Definition probing_constraints (q : Quaternion) : Constraints :=
  mkConstraints
    [mkOrientationConstraint "axis_6" "axis_0" q 0.1 0.1 0.1 1.0]
    [mkPositionConstraint "axis_6" "axis_0" (mkPoint 0 0 0.5)
       [mkSolidPrimitive CYLINDER [1; 0.01]]].

(** ** Basic facts *)

Lemma Qltb_true a b : Qltb a b = true <-> a < b.
Proof.
  unfold Qltb. rewrite negb_true_iff.
  split; intro H.
  - apply Qnot_le_lt. intro Hle. apply Qle_bool_iff in Hle. congruence.
  - destruct (Qle_bool b a) eqn:Hle; [|reflexivity].
    apply Qle_bool_iff in Hle. lra.
Qed.

Lemma Qltb_false a b : Qltb a b = false <-> b <= a.
Proof.
  unfold Qltb. rewrite negb_false_iff. apply Qle_bool_iff.
Qed.

Lemma bind_Ok {A B} (m : M A) (k : A -> M B) s b s' :
  bind m k s = Ok b s' -> exists a s1, m s = Ok a s1 /\ k a s1 = Ok b s'.
Proof.
  unfold bind. destruct (m s) as [a s1| |]; try discriminate.
  intro H. exists a, s1. split; [reflexivity|exact H].
Qed.

Lemma quiet_refl s : quiet s s.
Proof. constructor; try reflexivity. exists []. split; reflexivity. Qed.

Lemma quiet_trans s1 s2 s3 : quiet s1 s2 -> quiet s2 s3 -> quiet s1 s3.
Proof.
  intros [A1 B1 C1 D1 E1 [n1 [F1 G1]]] [A2 B2 C2 D2 E2 [n2 [F2 G2]]].
  constructor; try congruence.
  exists (n2 ++ n1)%list. split.
  - rewrite F2, F1. apply app_assoc.
  - rewrite forallb_app, G2, G1. reflexivity.
Qed.

Lemma quiet_record e s :
  observation e = true ->
  quiet s (mkState (self s) (record e (world s))).
Proof.
  intro H. constructor; try reflexivity.
  exists [e]. split; [reflexivity|]. simpl. rewrite H. reflexivity.
Qed.

(** *** Running one call at a time *)

Lemma bind_call {A B} (f : World -> A * World) (k : A -> M B) s :
  bind (call f) k s
  = k (fst (f (world s))) (mkState (self s) (snd (f (world s)))).
Proof. unfold bind, call. destruct (f (world s)). reflexivity. Qed.

Lemma bind_attr {A B} (f : Self -> A) (k : A -> M B) s :
  bind (attr f) k s = k (f (self s)) s.
Proof. reflexivity. Qed.

Lemma bind_assign {B} (f : Self -> Self) (k : unit -> M B) s :
  bind (assign f) k s = k tt (mkState (f (self s)) (world s)).
Proof. reflexivity. Qed.

Lemma bind_ret {A B} (a : A) (k : A -> M B) s : bind (ret a) k s = k a s.
Proof. reflexivity. Qed.

Lemma bind_bind {A B C} (m : M A) (k : A -> M B) (h : B -> M C) s :
  bind (bind m k) h s = bind m (fun a => bind (k a) h) s.
Proof. unfold bind. destruct (m s); reflexivity. Qed.

Lemma call_eq {A} (f : World -> A * World) s :
  call f s = Ok (fst (f (world s))) (mkState (self s) (snd (f (world s)))).
Proof. unfold call. destruct (f (world s)). reflexivity. Qed.

Ltac unfold_calls :=
  unfold rospy.get_time, rospy.is_shutdown, rospy.sleep, sleep,
    planning_scene.get_known_object_names, planning_scene.add_cylinder,
    planning_scene.add_mesh, planning_scene.remove_attached_object,
    planning_scene.remove_world_object, move_group.get_planning_frame,
    move_group.get_end_effector_link, move_group.get_current_pose,
    move_group.set_path_constraints, move_group.clear_path_constraints,
    move_group.set_max_velocity_scaling_factor,
    move_group.set_max_acceleration_scaling_factor, move_group.plan,
    move_group.compute_cartesian_path, move_group.execute, rospack_get_path,
    set_cartesian_constraints, set_start_pose in *.

Ltac run :=
  repeat (rewrite ?bind_bind, ?bind_call, ?bind_attr, ?bind_assign, ?bind_ret;
          cbn [fst snd self world env time_reads shutdown_checks polls
                 max_velocity_scaling_factor max_acceleration_scaling_factor
                 path_constraints trace record next_time_reading
                 next_shutdown_check next_poll with_velocity
                 with_acceleration with_path_constraints]).

(** A state reached by observation calls only is [quiet]. *)
Ltac quiet_now :=
  constructor; cbn; try reflexivity;
  first [ exists []; split; reflexivity
        | eexists [_]; split; reflexivity
        | eexists [_; _]; split; reflexivity
        | eexists [_; _; _]; split; reflexivity
        | eexists [_; _; _; _]; split; reflexivity ].

(** *** The wait loop *)

Lemma wait_loop_quiet fuel name expected timeout start :
  forall seconds s b s',
    wait_loop fuel name expected timeout start seconds s = Ok b s' ->
    quiet s s'.
Proof.
  induction fuel as [|fuel IH]; intros seconds s b s' H; [discriminate|].
  cbn [wait_loop] in H.
  destruct (Qltb (seconds - start) timeout).
  - unfold_calls. revert H. run.
    destruct (shutdown_flags _ _); cbn [negb].
    + unfold ret. intro H. inversion H; subst. quiet_now.
    + run.
      destruct (Bool.eqb _ _).
      * unfold ret. intro H. inversion H; subst. quiet_now.
      * run. intro H. apply IH in H.
        eapply quiet_trans; [|exact H]. quiet_now.
  - unfold ret in H. inversion H; subst. apply quiet_refl.
Qed.

Lemma wait_quiet fuel name expected timeout s b s' :
  __wait_for_state_update fuel name expected timeout s = Ok b s' ->
  quiet s s'.
Proof.
  unfold __wait_for_state_update. unfold_calls. run.
  intro H. apply wait_loop_quiet in H.
  eapply quiet_trans; [|exact H]. quiet_now.
Qed.

(** More fuel does not change a result. *)
Lemma wait_loop_fuel fuel name expected timeout start :
  forall seconds s b s',
    wait_loop fuel name expected timeout start seconds s = Ok b s' ->
    forall fuel', (fuel <= fuel')%nat ->
    wait_loop fuel' name expected timeout start seconds s = Ok b s'.
Proof.
  induction fuel as [|fuel IH]; intros seconds s b s' H fuel' Hle; [discriminate|].
  destruct fuel' as [|fuel']; [lia|].
  cbn [wait_loop] in *.
  destruct (Qltb (seconds - start) timeout); [|exact H].
  unfold_calls. revert H. run.
  destruct (shutdown_flags _ _); cbn [negb]; [trivial|].
  run. destruct (Bool.eqb _ _); [trivial|].
  run. intro H. apply IH with (fuel' := fuel') in H; [exact H|lia].
Qed.

Section WaitLoop.

Variables (s0 : State) (name : string) (expected : bool) (timeout : Q).

Let start := time_readings (env (world s0)) (time_reads (world s0)).
Let sec (i : nat) :=
  time_readings (env (world s0)) (time_reads (world s0) + 1 + i).

Lemma wait_loop_sound fuel :
  forall i s b s',
    at_test s0 i s ->
    (forall j, (j < i)%nat ->
       in_time s0 timeout j /\ alive s0 j /\ ~ observed s0 name expected j) ->
    wait_loop fuel name expected timeout start (sec i) s = Ok b s' ->
    (b = true <->
     exists k, poll_made s0 name expected timeout k /\ observed s0 name expected k).
Proof.
  induction fuel as [|fuel IH]; intros i s b s' Hat Hpast H; [discriminate|].
  destruct Hat as (He & Hr & Hc & Hp).
  cbn [wait_loop] in H.
  assert (Hstop : ~ (in_time s0 timeout i /\ alive s0 i) ->
            ~ exists k, poll_made s0 name expected timeout k
                        /\ observed s0 name expected k).
  { intros Hno (k & (Hk1 & Hk2) & Hobs).
    destruct (Nat.lt_ge_cases k i) as [Hlt|Hge].
    - apply (Hpast k Hlt). exact Hobs.
    - apply Hno. apply Hk1. exact Hge. }
  destruct (Qltb (sec i - start) timeout) eqn:Hg.
  - apply Qltb_true in Hg.
    unfold_calls. revert H. run. rewrite He, Hc.
    destruct (shutdown_flags _ _) eqn:Hflag; cbn [negb].
    + unfold ret. intro H. inversion H; subst.
      split; [discriminate|]. intro Hex. exfalso. revert Hex.
      apply Hstop. intros [_ Halive]. unfold alive in Halive. congruence.
    + run. rewrite He, Hp.
      destruct (Bool.eqb _ _) eqn:Hobs.
      * unfold ret. intro H. inversion H; subst.
        split; [|reflexivity]. intros _. exists i.
        apply Bool.eqb_prop in Hobs.
        split; [split|].
        -- intros j Hj. destruct (Nat.eq_dec j i) as [->|Hne].
           ++ split; [exact Hg|exact Hflag].
           ++ assert (Hlt : (j < i)%nat) by lia.
              destruct (Hpast j Hlt) as (A & B & _). split; assumption.
        -- intros j Hj. apply (Hpast j Hj).
        -- unfold observed. symmetry. exact Hobs.
      * run. rewrite He, Hr. intro H.
        replace (time_reads (world s0) + 2 + i)%nat
          with (time_reads (world s0) + 1 + S i)%nat in H by lia.
        apply (IH (S i)) in H; [exact H| |].
        -- repeat split; cbn; try assumption; lia.
        -- intros j Hj. destruct (Nat.eq_dec j i) as [->|Hne].
           ++ repeat split; [exact Hg|exact Hflag|].
              unfold observed. intro Heq. rewrite Heq in Hobs.
              rewrite Bool.eqb_reflx in Hobs. discriminate.
           ++ apply Hpast. lia.
  - apply Qltb_false in Hg.
    unfold ret in H. inversion H; subst.
    split; [discriminate|]. intro Hex. exfalso. revert Hex.
    apply Hstop. intros [Hin _]. unfold in_time, elapsed in Hin.
    fold start in Hin. fold (sec i) in Hin. lra.
Qed.

(** With the deadline reached at the test number [i + n], [n + 1] rounds
    are enough. *)
Lemma wait_loop_returns n :
  forall i s fuel,
    at_test s0 i s ->
    ~ in_time s0 timeout (i + n) ->
    (n < fuel)%nat ->
    exists b s', wait_loop fuel name expected timeout start (sec i) s = Ok b s'.
Proof.
  induction n as [|n IH]; intros i s fuel Hat Hend Hfuel;
    (destruct fuel as [|fuel]; [lia|]);
    destruct Hat as (He & Hr & Hc & Hp);
    cbn [wait_loop].
  - replace (i + 0)%nat with i in Hend by lia.
    destruct (Qltb (sec i - start) timeout) eqn:Hg.
    + apply Qltb_true in Hg. exfalso. apply Hend. exact Hg.
    + eexists _, _. reflexivity.
  - destruct (Qltb (sec i - start) timeout) eqn:Hg; [|eexists _, _; reflexivity].
    unfold_calls. run.
    destruct (shutdown_flags _ _); cbn [negb]; [eexists _, _; reflexivity|].
    run. destruct (Bool.eqb _ _); [eexists _, _; reflexivity|].
    run. rewrite He, Hr.
    replace (time_reads (world s0) + 2 + i)%nat
      with (time_reads (world s0) + 1 + S i)%nat by lia.
    apply (IH (S i)).
    + repeat split; cbn; try assumption; lia.
    + replace (S i + n)%nat with (i + S n)%nat by lia. exact Hend.
    + lia.
Qed.

End WaitLoop.

(** *** The wait as a whole *)

Lemma wait_eq fuel name expected timeout s :
  __wait_for_state_update fuel name expected timeout s
  = wait_loop fuel name expected timeout
      (time_readings (env (world s)) (time_reads (world s)))
      (time_readings (env (world s)) (time_reads (world s) + 1 + 0))
      (after_two_readings s).
Proof.
  unfold __wait_for_state_update. unfold_calls. run.
  replace (time_reads (world s) + 1 + 0)%nat with (S (time_reads (world s))) by lia.
  reflexivity.
Qed.

Lemma at_test_0 s : at_test s 0 (after_two_readings s).
Proof. repeat split; cbn; lia. Qed.

Lemma wait_sound fuel name expected timeout s b s' :
  __wait_for_state_update fuel name expected timeout s = Ok b s' ->
  (b = true <->
   exists k, poll_made s name expected timeout k /\ observed s name expected k).
Proof.
  rewrite wait_eq. intro H.
  eapply wait_loop_sound; [apply at_test_0| |exact H].
  intros j Hj. lia.
Qed.

Lemma wait_fuel fuel name expected timeout s b s' :
  __wait_for_state_update fuel name expected timeout s = Ok b s' ->
  forall fuel', (fuel <= fuel')%nat ->
  __wait_for_state_update fuel' name expected timeout s = Ok b s'.
Proof.
  rewrite wait_eq. intros H fuel' Hle. rewrite wait_eq.
  eapply wait_loop_fuel; eassumption.
Qed.

Lemma wait_returns name expected timeout s :
  clock_unbounded (env (world s)) ->
  exists b s',
    returns (fun fuel => __wait_for_state_update fuel name expected timeout) s b s'.
Proof.
  intro Hclock.
  destruct (Hclock (time_reads (world s) + 1)%nat
              (time_readings (env (world s)) (time_reads (world s)) + timeout))
    as [n Hn].
  assert (Hend : ~ in_time s timeout (0 + n)).
  { unfold in_time, elapsed. cbn [Nat.add]. lra. }
  destruct (wait_loop_returns s name expected timeout n 0 (after_two_readings s)
              (S n) (at_test_0 s) Hend (Nat.lt_succ_diag_r n)) as (b & s' & H).
  exists b, s', (S n). intros fuel Hfuel.
  rewrite wait_eq. eapply wait_loop_fuel; eassumption.
Qed.

(** With a deadline that has already passed when the loop is entered, the
    wait gives up without looking at the scene. *)
Lemma wait_expired fuel name expected timeout s :
  timeout <= elapsed s 0 ->
  __wait_for_state_update (S fuel) name expected timeout s
  = Ok false (after_two_readings s).
Proof.
  intro H. rewrite wait_eq. cbn [wait_loop].
  replace (Qltb _ timeout) with false; [reflexivity|].
  symmetry. apply Qltb_false. exact H.
Qed.

(** *** Composing calls that return *)

Lemma returns_pure {A} (m : M A) s a s' :
  m s = Ok a s' -> returns (fun _ => m) s a s'.
Proof. intro H. exists 0%nat. intros _ _. exact H. Qed.

Lemma returns_bind {A B} (m : nat -> M A) (k : A -> nat -> M B) s a s1 b s2 :
  returns m s a s1 ->
  returns (k a) s1 b s2 ->
  returns (fun fuel => bind (m fuel) (fun x => k x fuel)) s b s2.
Proof.
  intros [f1 H1] [f2 H2]. exists (Nat.max f1 f2). intros fuel Hfuel.
  unfold bind. rewrite H1 by lia. apply H2. lia.
Qed.

Lemma returns_quiet name expected timeout s b s' :
  returns (fun fuel => __wait_for_state_update fuel name expected timeout) s b s' ->
  quiet s s'.
Proof. intros [fuel0 H]. eapply wait_quiet. apply (H fuel0). lia. Qed.

Lemma kept_refl s : kept s s.
Proof. constructor; reflexivity. Qed.

Lemma kept_trans s1 s2 s3 : kept s1 s2 -> kept s2 s3 -> kept s1 s3.
Proof. intros [] []. constructor; congruence. Qed.

Lemma quiet_kept s s' : quiet s s' -> kept s s'.
Proof. intros []. constructor; assumption. Qed.

Lemma kept_record e s : kept s (mkState (self s) (record e (world s))).
Proof. constructor; reflexivity. Qed.

Lemma clock_kept s s' :
  kept s s' -> clock_unbounded (env (world s)) -> clock_unbounded (env (world s')).
Proof. intros [_ He _ _ _] H. rewrite He. exact H. Qed.

(** *** The methods, call by call *)

Lemma add_cylinder_eq fuel timeout s :
  __add_cylinder fuel timeout s
  = __wait_for_state_update fuel (cylinder_name (self s)) true timeout
      (after_add_cylinder s).
Proof. reflexivity. Qed.

Lemma add_cylinder_returns timeout s :
  clock_unbounded (env (world s)) ->
  exists b s',
    returns (fun fuel => __wait_for_state_update fuel (cylinder_name (self s))
                           true timeout) (after_add_cylinder s) b s'
    /\ returns (fun fuel => __add_cylinder fuel timeout) s b s'.
Proof.
  intro Hc.
  destruct (wait_returns (cylinder_name (self s)) true timeout
              (after_add_cylinder s) Hc) as (b & s' & Hw).
  exists b, s'. split; [exact Hw|].
  destruct Hw as [f0 Hw]. exists f0. intros fuel Hf.
  rewrite add_cylinder_eq. apply Hw, Hf.
Qed.

Lemma remove_cylinder_eq fuel timeout s b1 s1 :
  __wait_for_state_update fuel (cylinder_name (self s)) true timeout s = Ok b1 s1 ->
  __remove_cylinder fuel timeout s
  = __wait_for_state_update fuel (cylinder_name (self s)) false timeout
      (after_remove_calls s1).
Proof.
  intro H. unfold __remove_cylinder. run. unfold bind at 1. rewrite H.
  unfold_calls. run. unfold after_remove_calls.
  rewrite (quiet_self _ _ (wait_quiet _ _ _ _ _ _ _ H)). reflexivity.
Qed.

Lemma remove_cylinder_returns timeout s :
  clock_unbounded (env (world s)) ->
  exists b1 s1 b s',
    returns (fun fuel => __wait_for_state_update fuel (cylinder_name (self s))
                           true timeout) s b1 s1
    /\ returns (fun fuel => __wait_for_state_update fuel (cylinder_name (self s))
                              false timeout) (after_remove_calls s1) b s'
    /\ returns (fun fuel => __remove_cylinder fuel timeout) s b s'.
Proof.
  intro Hc.
  destruct (wait_returns (cylinder_name (self s)) true timeout s Hc)
    as (b1 & s1 & Hw1).
  assert (Hc1 : clock_unbounded (env (world (after_remove_calls s1)))).
  { cbn. rewrite (quiet_env _ _ (returns_quiet _ _ _ _ _ _ Hw1)). exact Hc. }
  destruct (wait_returns (cylinder_name (self s)) false timeout
              (after_remove_calls s1) Hc1) as (b & s' & Hw2).
  exists b1, s1, b, s'. split; [exact Hw1|]. split; [exact Hw2|].
  destruct Hw1 as [f1 Hw1], Hw2 as [f2 Hw2].
  exists (Nat.max f1 f2). intros fuel Hf.
  rewrite (remove_cylinder_eq fuel timeout s b1 s1) by (apply Hw1; lia).
  apply Hw2. lia.
Qed.

(** [__add_hollow_cylinder]: the mesh is added, then the wait on the hollow
    cylinder runs, and its answer [b] is dropped. *)
Lemma add_hollow_cylinder_returns s :
  clock_unbounded (env (world s)) ->
  exists p file e s_add b s',
    kept s s_add
    /\ trace (world s_add)
       = EAddMesh (hollow_cylinder_name (self s)) p file :: e :: trace (world s)
    /\ scene_change e = false
    /\ returns (fun fuel => __wait_for_state_update fuel
                              (hollow_cylinder_name (self s)) true 4) s_add b s'
    /\ returns __add_hollow_cylinder s tt s'.
Proof.
  intro Hc.
  eexists _, _, _.
  eexists (mkState (self s) (record (EAddMesh _ _ _) (record (EGetPath _ _) (world s)))).
  match goal with
  | |- exists b s', _ /\ _ /\ _ /\ returns _ ?st _ _ /\ _ =>
      destruct (wait_returns (hollow_cylinder_name (self s)) true 4 st Hc)
        as (b & s' & Hw)
  end.
  exists b, s'.
  split; [constructor; reflexivity|].
  split; [reflexivity|]. split; [reflexivity|]. split; [exact Hw|].
  destruct Hw as [f0 Hw]. exists f0. intros fuel Hf.
  unfold __add_hollow_cylinder. unfold_calls. run.
  unfold bind at 1. rewrite (Hw fuel Hf). reflexivity.
Qed.

Lemma remove_hollow_cylinder_returns s :
  clock_unbounded (env (world s)) ->
  exists b1 s1 b s',
    returns (fun fuel => __wait_for_state_update fuel
                           (hollow_cylinder_name (self s)) false 4)
      (mkState (self s)
         (record (ERemoveWorldObject (hollow_cylinder_name (self s))) (world s)))
      b1 s1
    /\ returns (fun fuel => __wait_for_state_update fuel (cylinder_name (self s))
                              false 4) s1 b s'
    /\ returns __remove_hollow_cylinder s b s'.
Proof.
  intro Hc.
  destruct (wait_returns (hollow_cylinder_name (self s)) false 4
              (mkState (self s)
                 (record (ERemoveWorldObject (hollow_cylinder_name (self s)))
                    (world s))) Hc) as (b1 & s1 & Hw1).
  pose proof (returns_quiet _ _ _ _ _ _ Hw1) as Hq.
  assert (Hc1 : clock_unbounded (env (world s1))).
  { rewrite (quiet_env _ _ Hq). exact Hc. }
  destruct (wait_returns (cylinder_name (self s)) false 4 s1 Hc1) as (b & s' & Hw2).
  exists b1, s1, b, s'. split; [exact Hw1|]. split; [exact Hw2|].
  destruct Hw1 as [f1 Hw1], Hw2 as [f2 Hw2].
  exists (Nat.max f1 f2). intros fuel Hf.
  unfold __remove_hollow_cylinder. unfold_calls. run.
  unfold bind at 1. rewrite (Hw1 fuel) by lia. run.
  rewrite (quiet_self _ _ Hq). cbn [self]. apply Hw2. lia.
Qed.

(** [enable_probing], call by call: the constraints [c] are applied and the
    hollow mesh is added (state [s_add]); the wait on the hollow cylinder
    answers [b1]; [__remove_cylinder] waits for the solid cylinder ([b2]),
    issues the two remove calls and waits again ([b3]); then the scaling is
    set.  None of the three answers is looked at. *)
Lemma enable_probing_returns s :
  clock_unbounded (env (world s)) ->
  exists c p file pre s_add b1 s2 b2 s3 b3 s4,
    (self s_add = with_cartesian_constraints (Some c) (self s)
     /\ env (world s_add) = env (world s)
     /\ path_constraints (world s_add) = Some c
     /\ trace (world s_add)
        = (EAddMesh (hollow_cylinder_name (self s)) p file :: pre
           ++ trace (world s))%list
     /\ In (ESetPathConstraints c) pre
     /\ scene_changes pre = [])
    /\ returns (fun fuel => __wait_for_state_update fuel
                              (hollow_cylinder_name (self s)) true 4) s_add b1 s2
    /\ returns (fun fuel => __wait_for_state_update fuel
                              (cylinder_name (self s)) true 4) s2 b2 s3
    /\ returns (fun fuel => __wait_for_state_update fuel
                              (cylinder_name (self s)) false 4)
         (after_remove_calls s3) b3 s4
    /\ returns enable_probing s tt (set_scaling 0.01 0.1 s4).
Proof.
  intro Hc.
  eexists _, _, _, [_; _; _; _].
  eexists (mkState (with_cartesian_constraints _ (self s))
             (record (EAddMesh _ _ _)
                (record (EGetPath _ _)
                   (record (ESetPathConstraints _)
                      (with_path_constraints _
                         (record (EGetCurrentPose _ _)
                            (record (EGetCurrentPose _ _) (world s)))))))).
  match goal with
  | |- exists b1 s2 b2 s3 b3 s4, _ /\ returns _ ?st _ _ /\ _ =>
      destruct (wait_returns (hollow_cylinder_name (self s)) true 4 st Hc)
        as (b1 & s2 & Hw1)
  end.
  pose proof (returns_quiet _ _ _ _ _ _ Hw1) as Hq1.
  assert (Hc2 : clock_unbounded (env (world s2))).
  { rewrite (quiet_env _ _ Hq1). exact Hc. }
  destruct (remove_cylinder_returns 4 s2 Hc2) as (b2 & s3 & b3 & s4 & Hw2 & Hw3 & Hrm).
  rewrite (quiet_self _ _ Hq1) in Hw2, Hw3. cbn [self cylinder_name with_cartesian_constraints] in Hw2, Hw3.
  exists b1, s2, b2, s3, b3, s4.
  assert (Hrun : returns enable_probing s tt (set_scaling 0.01 0.1 s4)).
  { destruct Hw1 as [f1 Hw1], Hrm as [f2 Hrm].
    exists (Nat.max f1 f2). intros fuel Hf.
    unfold enable_probing, __apply_constraints, __get_orientation_constraints,
      __get_relative_orientation, __get_position_constraints,
      __add_hollow_cylinder.
    unfold_calls. run.
    unfold bind at 1. rewrite (Hw1 fuel) by lia. run.
    unfold bind at 1. rewrite (Hrm fuel) by lia.
    unfold_calls. run. reflexivity. }
  split; [|split; [exact Hw1|split; [exact Hw2|split; [exact Hw3|exact Hrun]]]].
  repeat split; cbn; auto.
Qed.

Lemma disable_probing_returns s :
  clock_unbounded (env (world s)) ->
  exists b1 s1 b2 s2 b3 s3,
    returns (fun fuel => __wait_for_state_update fuel (cylinder_name (self s))
                           true 10) (after_add_cylinder s) b1 s1
    /\ returns (fun fuel => __wait_for_state_update fuel
                              (hollow_cylinder_name (self s)) false 4)
         (mkState (self s)
            (record (ERemoveWorldObject (hollow_cylinder_name (self s))) (world s1)))
         b2 s2
    /\ returns (fun fuel => __wait_for_state_update fuel (cylinder_name (self s))
                              false 4) s2 b3 s3
    /\ returns disable_probing s tt (set_scaling 0.8 1 (after_clear_constraints s3)).
Proof.
  intro Hc.
  destruct (add_cylinder_returns 10 s Hc) as (b1 & s1 & Hw1 & Hadd).
  pose proof (returns_quiet _ _ _ _ _ _ Hw1) as Hq1.
  assert (Hs1 : self s1 = self s) by (rewrite (quiet_self _ _ Hq1); reflexivity).
  assert (Hc1 : clock_unbounded (env (world s1))).
  { rewrite (quiet_env _ _ Hq1). exact Hc. }
  destruct (remove_hollow_cylinder_returns s1 Hc1)
    as (b2 & s2 & b3 & s3 & Hw2 & Hw3 & Hrm).
  rewrite Hs1 in Hw2, Hw3.
  exists b1, s1, b2, s2, b3, s3.
  split; [exact Hw1|]. split; [exact Hw2|]. split; [exact Hw3|].
  destruct Hadd as [f1 Hadd], Hrm as [f2 Hrm].
  exists (Nat.max f1 f2). intros fuel Hf.
  unfold disable_probing.
  unfold bind at 1. rewrite (Hadd fuel) by lia.
  unfold bind at 1. rewrite (Hrm fuel) by lia.
  unfold __clear_constraints. unfold_calls. run. reflexivity.
Qed.

(** *** More fuel, same result *)

Lemma monotone_pure {A} (m : M A) : monotone (fun _ => m).
Proof. intros fuel s a s' fuel' H _. exact H. Qed.

Lemma monotone_bind {A B} (m : nat -> M A) (k : A -> nat -> M B) :
  monotone m -> (forall a, monotone (k a)) ->
  monotone (fun fuel => bind (m fuel) (fun x => k x fuel)).
Proof.
  intros Hm Hk fuel s b s' fuel' H Hle.
  apply bind_Ok in H. destruct H as (a & s1 & H1 & H2).
  unfold bind. rewrite (Hm _ _ _ _ _ H1 Hle). exact (Hk a _ _ _ _ _ H2 Hle).
Qed.

Lemma monotone_wait name expected timeout :
  monotone (fun fuel => __wait_for_state_update fuel name expected timeout).
Proof. intros fuel s a s' fuel' H Hle. eapply wait_fuel; eassumption. Qed.

Lemma monotone_add_cylinder timeout :
  monotone (fun fuel => __add_cylinder fuel timeout).
Proof.
  intros fuel s a s' fuel' H Hle. rewrite add_cylinder_eq in *.
  eapply wait_fuel; eassumption.
Qed.

Lemma monotone_remove_cylinder timeout :
  monotone (fun fuel => __remove_cylinder fuel timeout).
Proof.
  unfold __remove_cylinder.
  apply (monotone_bind (fun _ => attr cylinder_name)); [apply monotone_pure|].
  intro name.
  apply (monotone_bind (fun fuel => __wait_for_state_update fuel name true timeout));
    [apply monotone_wait|].
  intros _.
  apply (monotone_bind (fun _ => planning_scene.remove_attached_object name));
    [apply monotone_pure|].
  intros _.
  apply (monotone_bind (fun _ => planning_scene.remove_world_object name));
    [apply monotone_pure|].
  intros _. apply monotone_wait.
Qed.

Lemma monotone_add_hollow_cylinder : monotone __add_hollow_cylinder.
Proof.
  intros fuel s a s' fuel' H Hle. revert H.
  unfold __add_hollow_cylinder. unfold_calls. run.
  intro H. apply bind_Ok in H. destruct H as (b & s1 & H1 & H2).
  unfold bind. rewrite (wait_fuel _ _ _ _ _ _ _ H1 _ Hle). exact H2.
Qed.

Lemma monotone_remove_hollow_cylinder : monotone __remove_hollow_cylinder.
Proof.
  intros fuel s a s' fuel' H Hle. revert H.
  unfold __remove_hollow_cylinder. unfold_calls. run.
  intro H. apply bind_Ok in H. destruct H as (b & s1 & H1 & H2).
  unfold bind. rewrite (wait_fuel _ _ _ _ _ _ _ H1 _ Hle).
  revert H2. run. intro H2. eapply wait_fuel; eassumption.
Qed.

Lemma monotone_enable_probing : monotone enable_probing.
Proof.
  unfold enable_probing.
  apply (monotone_bind (fun _ => __apply_constraints)); [apply monotone_pure|].
  intros _.
  apply (monotone_bind __add_hollow_cylinder); [apply monotone_add_hollow_cylinder|].
  intros _.
  apply (monotone_bind (fun fuel => __remove_cylinder fuel 4));
    [apply monotone_remove_cylinder|].
  intros _. apply monotone_pure.
Qed.

Lemma monotone_disable_probing : monotone disable_probing.
Proof.
  unfold disable_probing.
  apply (monotone_bind (fun fuel => __add_cylinder fuel 10));
    [apply monotone_add_cylinder|].
  intros _.
  apply (monotone_bind __remove_hollow_cylinder);
    [apply monotone_remove_hollow_cylinder|].
  intros _. apply monotone_pure.
Qed.

Lemma monotone_returns {A} (m : nat -> M A) fuel s a s' :
  monotone m -> m fuel s = Ok a s' -> returns m s a s'.
Proof. intros Hm H. exists fuel. intros fuel' Hle. eapply Hm; eassumption. Qed.

(** What a call returns is determined. *)
Lemma returns_unique {A} (m : nat -> M A) s a1 s1 a2 s2 :
  returns m s a1 s1 -> returns m s a2 s2 -> a1 = a2 /\ s1 = s2.
Proof.
  intros [f1 H1] [f2 H2].
  pose proof (H1 (Nat.max f1 f2) (Nat.le_max_l _ _)) as E1.
  pose proof (H2 (Nat.max f1 f2) (Nat.le_max_r _ _)) as E2.
  rewrite E1 in E2. inversion E2. split; reflexivity.
Qed.

Lemma never_known_In name t :
  never_known name t = true ->
  forall names, In (EKnownObjectNames names) t -> mem name names = false.
Proof.
  unfold never_known. rewrite forallb_forall. intros H names Hin.
  specialize (H _ Hin). cbn in H. apply negb_true_iff in H. exact H.
Qed.

(** *** The lab worlds *)

Lemma lab_clock_unbounded names : clock_unbounded (lab_env names).
Proof.
  intros k T. exists (Z.to_nat (Qceiling T)). cbn [lab_env time_readings].
  apply Qle_trans with (inject_Z (Qceiling T)); [apply Qle_ceiling|].
  rewrite <- Zle_Qle. lia.
Qed.

Lemma lab_clock_monotone names : clock_monotone (lab_env names).
Proof.
  intros i j Hij. cbn [lab_env time_readings]. rewrite <- Zle_Qle. lia.
Qed.


(** *** Scene changes in a trace *)

Lemma scene_changes_app t1 t2 :
  scene_changes (t1 ++ t2) = (scene_changes t1 ++ scene_changes t2)%list.
Proof. apply filter_app. Qed.

Lemma observations_change_nothing t :
  forallb observation t = true -> scene_changes t = [].
Proof.
  induction t as [|e t IH]; [reflexivity|].
  cbn [forallb scene_changes filter]. rewrite andb_true_iff. intros [He Ht].
  destruct e; try discriminate; cbn; apply IH; exact Ht.
Qed.

(** *** No call of the probing switch raises *)

Lemma wait_loop_never_raises fuel name expected timeout start :
  forall seconds s e s',
    wait_loop fuel name expected timeout start seconds s <> Raised e s'.
Proof.
  induction fuel as [|fuel IH]; intros seconds s e s'; [discriminate|].
  cbn [wait_loop]. destruct (Qltb _ _); [|discriminate].
  unfold_calls. run. destruct (shutdown_flags _ _); cbn [negb]; [discriminate|].
  run. destruct (Bool.eqb _ _); [discriminate|]. run. apply IH.
Qed.

Lemma wait_never_raises fuel name expected timeout s e s' :
  __wait_for_state_update fuel name expected timeout s <> Raised e s'.
Proof. rewrite wait_eq. apply wait_loop_never_raises. Qed.

Lemma bind_wait_never_raises {B} fuel name expected timeout (k : bool -> M B) s :
  (forall b s1 e s', k b s1 <> Raised e s') ->
  forall e s',
    bind (__wait_for_state_update fuel name expected timeout) k s <> Raised e s'.
Proof.
  intros Hk e s'. unfold bind.
  destruct (__wait_for_state_update fuel name expected timeout s) eqn:Hw.
  - apply Hk.
  - exfalso. eapply wait_never_raises. exact Hw.
  - discriminate.
Qed.

Lemma enable_probing_never_raises fuel s e s' :
  enable_probing fuel s <> Raised e s'.
Proof.
  unfold enable_probing, __apply_constraints, __get_orientation_constraints,
    __get_relative_orientation, __get_position_constraints,
    __add_hollow_cylinder, __remove_cylinder.
  unfold_calls. run.
  apply bind_wait_never_raises. intros b1 s1 e1 s1'. run.
  apply bind_wait_never_raises. intros b2 s2 e2 s2'. run.
  apply bind_wait_never_raises. intros b3 s3 e3 s3'. run.
  discriminate.
Qed.

(** *** What the probing switch leaves behind *)

Lemma enable_probing_result s :
  clock_unbounded (env (world s)) ->
  exists c p file pre s_add b s_wait post s',
    returns enable_probing s tt s'
    /\ (self s' = with_cartesian_constraints (Some c) (self s)
        /\ env (world s') = env (world s)
        /\ path_constraints (world s') = Some c
        /\ max_velocity_scaling_factor (world s') = 0.01
        /\ max_acceleration_scaling_factor (world s') = 0.1)
    /\ (trace (world s_add)
        = (EAddMesh (hollow_cylinder_name (self s)) p file :: pre
           ++ trace (world s))%list
        /\ In (ESetPathConstraints c) pre
        /\ scene_changes pre = [])
    /\ returns (fun fuel => __wait_for_state_update fuel
                              (hollow_cylinder_name (self s)) true 4)
         s_add b s_wait
    /\ (trace (world s') = (post ++ trace (world s_wait))%list
        /\ scene_changes post
           = [ERemoveWorldObject (cylinder_name (self s));
              ERemoveAttachedObject (cylinder_name (self s))]
        /\ In (ESetMaxVelocityScalingFactor 0.01) post
        /\ In (ESetMaxAccelerationScalingFactor 0.1) post).
Proof.
  intro Hc.
  destruct (enable_probing_returns s Hc)
    as (c & p & file & pre & s_add & b1 & s2 & b2 & s3 & b3 & s4
        & (Hself & Henv & Hpc & Htr & Hin & Hpre) & Hw1 & Hw2 & Hw3 & Hrun).
  pose proof (returns_quiet _ _ _ _ _ _ Hw1) as [Q1a Q1b Q1c Q1d Q1e (n1 & Q1f & Q1g)].
  pose proof (returns_quiet _ _ _ _ _ _ Hw2) as [Q2a Q2b Q2c Q2d Q2e (n2 & Q2f & Q2g)].
  pose proof (returns_quiet _ _ _ _ _ _ Hw3) as [Q3a Q3b Q3c Q3d Q3e (n3 & Q3f & Q3g)].
  cbn in Q3a, Q3b, Q3e, Q3f.
  exists c, p, file, pre, s_add, b1, s2.
  exists (ESetMaxAccelerationScalingFactor 0.1 :: ESetMaxVelocityScalingFactor 0.01
          :: n3 ++ ERemoveWorldObject (cylinder_name (self s3))
          :: ERemoveAttachedObject (cylinder_name (self s3)) :: n2)%list.
  exists (set_scaling 0.01 0.1 s4).
  assert (Hs3 : self s3 = with_cartesian_constraints (Some c) (self s))
    by congruence.
  split; [exact Hrun|]. split; [|split; [|split; [exact Hw1|]]].
  - cbn. repeat split; congruence.
  - repeat split; assumption.
  - split; [|split; [|split]].
    + cbn. rewrite Q3f, Q2f. cbn. rewrite <- app_assoc. reflexivity.
    + pose proof (observations_change_nothing _ Q3g) as E3.
      pose proof (observations_change_nothing _ Q2g) as E2.
      unfold scene_changes in *. cbn [filter scene_change].
      rewrite filter_app. cbn [filter scene_change]. rewrite E3, E2, Hs3.
      reflexivity.
    + right. left. reflexivity.
    + left. reflexivity.
Qed.

Lemma disable_probing_result s :
  clock_unbounded (env (world s)) ->
  exists s',
    returns disable_probing s tt s'
    /\ self s' = with_cartesian_constraints None (self s)
    /\ env (world s') = env (world s)
    /\ path_constraints (world s') = None
    /\ max_velocity_scaling_factor (world s') = 0.8
    /\ max_acceleration_scaling_factor (world s') = 1.
Proof.
  intro Hc.
  destruct (disable_probing_returns s Hc)
    as (b1 & s1 & b2 & s2 & b3 & s3 & Hw1 & Hw2 & Hw3 & Hrun).
  pose proof (returns_quiet _ _ _ _ _ _ Hw1) as [Q1a Q1b _ _ _ _].
  pose proof (returns_quiet _ _ _ _ _ _ Hw2) as [Q2a Q2b _ _ _ _].
  pose proof (returns_quiet _ _ _ _ _ _ Hw3) as [Q3a Q3b _ _ _ _].
  cbn in Q1a, Q1b, Q2a, Q2b.
  exists (set_scaling 0.8 1 (after_clear_constraints s3)).
  split; [exact Hrun|]. cbn. repeat split; congruence.
Qed.

Lemma unconfirmed name e h pre post :
  h = (pre ++ e :: post)%list ->
  never_known name pre = true ->
  ~ confirmed_before name e h.
Proof.
  intros Hh Hnever Hconf.
  destruct (Hconf pre post Hh) as (names & Hin & Hmem).
  rewrite (never_known_In name pre Hnever names Hin) in Hmem. discriminate.
Qed.

Ltac in_list := repeat ((left; reflexivity) || right).

(** *** Planning *)

Lemma plan_probing_eq z s c :
  cartesian_constraints (self s) = Some c ->
  plan_probing z s
  = Ok (cartesian_planner (env (world s))
          (probing_waypoints (current_pose (env (world s)) default_link) z) 0.01 0.0 c)
      (mkState (self s)
         (record
            (EComputeCartesianPath
               (probing_waypoints (current_pose (env (world s)) default_link) z) 0.01 0.0 c
               (fst (cartesian_planner (env (world s))
                       (probing_waypoints (current_pose (env (world s)) default_link) z)
                       0.01 0.0 c))
               (snd (cartesian_planner (env (world s))
                       (probing_waypoints (current_pose (env (world s)) default_link) z)
                       0.01 0.0 c)))
            (world (before_cartesian_path s)))).
Proof.
  intro H. unfold plan_probing. unfold_calls. run.
  unfold bind at 1. unfold get_cartesian_constraints. cbn [self]. rewrite H.
  rewrite call_eq. reflexivity.
Qed.

Lemma plan_probing_unset z s :
  cartesian_constraints (self s) = None ->
  plan_probing z s
  = Raised (AttributeError "cartesian_constraints") (before_cartesian_path s).
Proof.
  intro H. unfold plan_probing. unfold_calls. run.
  unfold bind at 1. unfold get_cartesian_constraints. cbn [self]. rewrite H.
  reflexivity.
Qed.

(** *** Construction *)

Lemma new_leaves_constraints_unset fuel w s :
  new fuel w = Ok tt s -> cartesian_constraints (self s) = None.
Proof.
  unfold new, __init__. unfold_calls. run. unfold with_start_pose. cbn [blank
    planning_frame eef_link cylinder_pose cylinder_height cylinder_radius
    cylinder_name hollow_cylinder_name start_pose cartesian_constraints].
  intro H. apply bind_Ok in H. destruct H as (b & s1 & H1 & H2).
  rewrite add_cylinder_eq in H1. apply wait_quiet in H1.
  unfold ret in H2. inversion H2; subst.
  rewrite (quiet_self _ _ H1). reflexivity.
Qed.

(** *** Quaternions *)

(** The example of the documentation of [quaternion_multiply]. *)
Example quaternion_multiply_doctest :
  quaternion_eq
    (quaternion_multiply (mkQuaternion 1 (-2) 3 4) (mkQuaternion (-5) 6 7 8))
    (mkQuaternion (-44) (-14) 48 28).
Proof. repeat split; vm_compute; reflexivity. Qed.

(** Changing the sign of [w] instead of the signs of [x], [y], [z] gives
    the opposite of the conjugate, so the product computed by
    [__get_relative_orientation] is the opposite of the product with the
    conjugate. *)
Lemma inverted_is_opposite_of_conjugate (r t : Quaternion) :
  quaternion_eq
    (quaternion_multiply (mkQuaternion (qx r) (qy r) (qz r) (- qw r)) t)
    (quaternion_opposite (quaternion_multiply (quaternion_conjugate r) t)).
Proof.
  destruct r as [x y z w], t as [a b c d]. repeat split; cbn; ring.
Qed.

(** ** The convergence wait *)

(** C1 (as amended).  With a clock that passes every deadline, the wait
    returns, and it returns true exactly when one of the membership checks
    it made saw the expected state, every check being made on a running
    node less than [timeout] seconds after the start.  With a timeout of
    zero (or less) and a clock that does not run backwards it makes no
    membership check at all and returns false. *)
Theorem wait_for_state_update_spec (s : State) (name : string)
    (expected : bool) (timeout : Q) :
  clock_unbounded (env (world s)) ->
  exists b s',
    returns (fun fuel => __wait_for_state_update fuel name expected timeout) s b s'
    /\ (b = true <->
        exists k, poll_made s name expected timeout k /\ observed s name expected k)
    /\ (timeout <= 0 -> clock_monotone (env (world s)) ->
        b = false /\ checks_made s s' = 0%nat).
Proof.
  intro Hclock.
  destruct (wait_returns name expected timeout s Hclock) as (b & s' & fuel0 & H).
  exists b, s'. split; [exists fuel0; exact H|]. split.
  - eapply wait_sound. apply (H fuel0). lia.
  - intros Ht Hmono.
    assert (Hexp : timeout <= elapsed s 0).
    { unfold elapsed.
      pose proof (Hmono (time_reads (world s)) (time_reads (world s) + 1 + 0)%nat).
      assert (time_readings (env (world s)) (time_reads (world s))
              <= time_readings (env (world s)) (time_reads (world s) + 1 + 0))
        by (apply Hmono; lia).
      lra. }
    pose proof (wait_expired fuel0 name expected timeout s Hexp) as H1.
    rewrite (H (S fuel0)) in H1 by lia.
    inversion H1; subst. split; [reflexivity|].
    unfold checks_made. cbn. lia.
Qed.

Lemma wait_for_state_update_spec_witness :
  clock_unbounded (lab_env empty_scene)
  /\ exists b s',
       returns (fun fuel => __wait_for_state_update fuel "full_cylinder" true 4)
         (lab_state empty_scene 0.8 1) b s'
       /\ (b = true <->
           exists k, poll_made (lab_state empty_scene 0.8 1) "full_cylinder" true 4 k
                     /\ observed (lab_state empty_scene 0.8 1) "full_cylinder" true k)
       /\ (4 <= 0 -> clock_monotone (lab_env empty_scene) ->
           b = false /\ checks_made (lab_state empty_scene 0.8 1) s' = 0%nat).
Proof.
  split; [apply lab_clock_unbounded|].
  apply (wait_for_state_update_spec (lab_state empty_scene 0.8 1)).
  apply lab_clock_unbounded.
Defined.

(** A cylinder that shows up at the third query is seen by the third
    membership check of a four-second wait. *)
Example wait_sees_late_cylinder :
  exists s',
    __wait_for_state_update 5 "full_cylinder" true 4 (lab_state late_scene 0.8 1)
    = Ok true s'
    /\ checks_made (lab_state late_scene 0.8 1) s' = 3%nat
    /\ poll_made (lab_state late_scene 0.8 1) "full_cylinder" true 4 2
    /\ observed (lab_state late_scene 0.8 1) "full_cylinder" true 2.
Proof.
  eexists. split; [vm_compute; reflexivity|]. split; [reflexivity|].
  split; [|reflexivity]. split.
  - intros j Hj. split; [|reflexivity].
    destruct j as [|[|[|j]]]; [vm_compute; reflexivity ..|lia].
  - intros j Hj. destruct j as [|[|j]]; [discriminate ..|lia].
Qed.

(** C1 (as stated) fails for a timeout of zero: in a scene that knows the
    cylinder all along, waiting for it to be known returns false, and no
    membership check has been made. *)
Lemma wait_zero_timeout_makes_no_check :
  exists s',
    returns (fun fuel => __wait_for_state_update fuel "full_cylinder" true 0)
      (lab_state full_scene 0.8 1) false s'
    /\ observed (lab_state full_scene 0.8 1) "full_cylinder" true 0
    /\ ~ (1 <= checks_made (lab_state full_scene 0.8 1) s')%nat.
Proof.
  exists (after_two_readings (lab_state full_scene 0.8 1)).
  split; [|split].
  - exists 1%nat. intros [|fuel] Hfuel; [lia|].
    apply wait_expired. vm_compute. discriminate.
  - reflexivity.
  - vm_compute. lia.
Qed.

(** ** The probing switch *)

(** C3 (as amended).  In [enable_probing] the hollow mesh is added first,
    then the wait on the hollow cylinder runs to its end, changing nothing
    in the scene, and only after it has returned are the two remove calls
    for the solid cylinder issued.  The wait's answer [b] is not looked at:
    the remove calls follow whether the hollow cylinder was seen or the
    wait timed out. *)
Theorem enable_probing_removes_after_hollow_wait (s : State) :
  clock_unbounded (env (world s)) ->
  exists p file pre s_add b s_wait post s',
    returns enable_probing s tt s'
    /\ trace (world s_add)
       = (EAddMesh (hollow_cylinder_name (self s)) p file :: pre
          ++ trace (world s))%list
    /\ scene_changes pre = []
    /\ returns (fun fuel => __wait_for_state_update fuel
                              (hollow_cylinder_name (self s)) true 4)
         s_add b s_wait
    /\ scene_changes (trace (world s_wait)) = scene_changes (trace (world s_add))
    /\ trace (world s') = (post ++ trace (world s_wait))%list
    /\ scene_changes post
       = [ERemoveWorldObject (cylinder_name (self s));
          ERemoveAttachedObject (cylinder_name (self s))].
Proof.
  intro Hc.
  destruct (enable_probing_result s Hc)
    as (c & p & file & pre & s_add & b & s_wait & post & s'
        & Hrun & _ & (Htr & _ & Hpre) & Hw & (Hpost & Hch & _ & _)).
  exists p, file, pre, s_add, b, s_wait, post, s'.
  repeat split; try assumption.
  destruct (returns_quiet _ _ _ _ _ _ Hw) as [_ _ _ _ _ (n & Hn & Hobs)].
  rewrite Hn, scene_changes_app, (observations_change_nothing _ Hobs).
  reflexivity.
Qed.

Lemma enable_probing_removes_after_hollow_wait_witness :
  clock_unbounded (env (world (lab_state empty_scene 0.8 1)))
  /\ exists p file pre s_add b s_wait post s',
       returns enable_probing (lab_state empty_scene 0.8 1) tt s'
       /\ trace (world s_add)
          = (EAddMesh "hollow_cylinder" p file :: pre ++ [])%list
       /\ scene_changes pre = []
       /\ returns (fun fuel => __wait_for_state_update fuel "hollow_cylinder" true 4)
            s_add b s_wait
       /\ scene_changes (trace (world s_wait)) = scene_changes (trace (world s_add))
       /\ trace (world s') = (post ++ trace (world s_wait))%list
       /\ scene_changes post
          = [ERemoveWorldObject "full_cylinder";
             ERemoveAttachedObject "full_cylinder"].
Proof.
  split; [apply lab_clock_unbounded|].
  apply (enable_probing_removes_after_hollow_wait (lab_state empty_scene 0.8 1)).
  apply lab_clock_unbounded.
Defined.

(** C3 (as stated) fails where the hollow cylinder never shows up in the
    scene: [enable_probing] returns, it has issued the remove call for the
    solid cylinder, and no scene query before that call had the hollow
    cylinder among the known objects. *)
Lemma enable_probing_removes_unconfirmed :
  exists s',
    returns enable_probing (lab_state empty_scene 0.8 1) tt s'
    /\ In (ERemoveWorldObject "full_cylinder") (history s')
    /\ ~ confirmed_before "hollow_cylinder" (ERemoveWorldObject "full_cylinder")
           (history s').
Proof.
  eexists. split; [|split].
  - apply (monotone_returns enable_probing 10); [apply monotone_enable_probing|].
    vm_compute. reflexivity.
  - vm_compute. in_list.
  - match goal with
    | |- ~ confirmed_before _ _ ?h =>
        apply (unconfirmed _ _ h (firstn 34 h) (skipn 35 h))
    end; vm_compute; reflexivity.
Qed.

(** C4 (as amended).  A second [enable_probing] with no [disable_probing]
    in between is not rejected: it raises nothing, returns, and has applied
    everything once more -- the path constraints are set again, the hollow
    mesh is added again, the solid cylinder is removed again and the
    scaling factors are set again. *)
Theorem enable_probing_twice_is_reapplied (s : State) :
  clock_unbounded (env (world s)) ->
  exists s1 s2 c p file new,
    returns enable_probing s tt s1
    /\ returns enable_probing s1 tt s2
    /\ (forall fuel e s', enable_probing fuel s1 <> Raised e s')
    /\ trace (world s2) = (new ++ trace (world s1))%list
    /\ In (ESetPathConstraints c) new
    /\ scene_changes new
       = [ERemoveWorldObject (cylinder_name (self s));
          ERemoveAttachedObject (cylinder_name (self s));
          EAddMesh (hollow_cylinder_name (self s)) p file]
    /\ In (ESetMaxVelocityScalingFactor 0.01) new
    /\ In (ESetMaxAccelerationScalingFactor 0.1) new.
Proof.
  intro Hc.
  destruct (enable_probing_result s Hc)
    as (c1 & _ & _ & _ & _ & _ & _ & _ & s1
        & Hrun1 & (Hself1 & Henv1 & _) & _).
  assert (Hc1 : clock_unbounded (env (world s1))) by (rewrite Henv1; exact Hc).
  destruct (enable_probing_result s1 Hc1)
    as (c & p & file & pre & s_add & b & s_wait & post & s2
        & Hrun2 & _ & (Htr & Hin & Hpre) & Hw & (Hpost & Hch & Hvel & Hacc)).
  destruct (returns_quiet _ _ _ _ _ _ Hw) as [_ _ _ _ _ (n & Hn & Hobs)].
  rewrite Hself1 in Htr, Hch. cbn [with_cartesian_constraints cylinder_name
    hollow_cylinder_name] in Htr, Hch.
  exists s1, s2, c, p, file.
  exists (post ++ n ++ EAddMesh (hollow_cylinder_name (self s)) p file :: pre)%list.
  split; [exact Hrun1|]. split; [exact Hrun2|].
  split; [intros fuel e s'; apply enable_probing_never_raises|].
  split; [|split; [|split; [|split]]].
  - rewrite Hpost, Hn, Htr. rewrite <- !app_assoc. reflexivity.
  - apply in_or_app. right. apply in_or_app. right. right. exact Hin.
  - rewrite !scene_changes_app, Hch, (observations_change_nothing _ Hobs).
    cbn. unfold scene_changes in Hpre. rewrite Hpre. reflexivity.
  - apply in_or_app. left. exact Hvel.
  - apply in_or_app. left. exact Hacc.
Qed.

Lemma enable_probing_twice_is_reapplied_witness :
  clock_unbounded (env (world (lab_state full_scene 0.8 1)))
  /\ exists s1 s2 c p file new,
       returns enable_probing (lab_state full_scene 0.8 1) tt s1
       /\ returns enable_probing s1 tt s2
       /\ (forall fuel e s', enable_probing fuel s1 <> Raised e s')
       /\ trace (world s2) = (new ++ trace (world s1))%list
       /\ In (ESetPathConstraints c) new
       /\ scene_changes new
          = [ERemoveWorldObject "full_cylinder";
             ERemoveAttachedObject "full_cylinder";
             EAddMesh "hollow_cylinder" p file]
       /\ In (ESetMaxVelocityScalingFactor 0.01) new
       /\ In (ESetMaxAccelerationScalingFactor 0.1) new.
Proof.
  split; [apply lab_clock_unbounded|].
  apply (enable_probing_twice_is_reapplied (lab_state full_scene 0.8 1)).
  apply lab_clock_unbounded.
Defined.

(** C4 (as stated) fails: on a helper that has just run [enable_probing],
    a second [enable_probing] returns normally; with no fuel does it end
    in an exception. *)
Lemma second_enable_probing_is_not_rejected :
  exists s1 s2,
    returns enable_probing (lab_state full_scene 0.8 1) tt s1
    /\ returns enable_probing s1 tt s2
    /\ ~ (exists fuel e s', enable_probing fuel s1 = Raised e s').
Proof.
  eexists. eexists. split; [|split].
  - apply (monotone_returns enable_probing 10); [apply monotone_enable_probing|].
    vm_compute. reflexivity.
  - apply (monotone_returns enable_probing 10); [apply monotone_enable_probing|].
    vm_compute. reflexivity.
  - intros (fuel & e & s' & H). revert H. apply enable_probing_never_raises.
Qed.

(** C5 (as amended).  [enable_probing] followed by [disable_probing] ends
    with the velocity scaling factor at 0.8 and the acceleration scaling
    factor at 1 -- the two constants of [disable_probing], whatever the
    factors were before -- and with no path constraint, neither in the move
    group nor in [self.cartesian_constraints].  So the scaling comes back
    to what it was exactly when it was 0.8 and 1 to begin with. *)
Theorem probing_round_trip (s : State) :
  clock_unbounded (env (world s)) ->
  exists s1 s2,
    returns enable_probing s tt s1
    /\ returns disable_probing s1 tt s2
    /\ max_velocity_scaling_factor (world s2) = 0.8
    /\ max_acceleration_scaling_factor (world s2) = 1
    /\ path_constraints (world s2) = None
    /\ cartesian_constraints (self s2) = Some None
    /\ (max_velocity_scaling_factor (world s2)
        == max_velocity_scaling_factor (world s)
        <-> max_velocity_scaling_factor (world s) == 0.8)
    /\ (max_acceleration_scaling_factor (world s2)
        == max_acceleration_scaling_factor (world s)
        <-> max_acceleration_scaling_factor (world s) == 1).
Proof.
  intro Hc.
  destruct (enable_probing_result s Hc)
    as (c1 & _ & _ & _ & _ & _ & _ & _ & s1
        & Hrun1 & (Hself1 & Henv1 & _) & _).
  assert (Hc1 : clock_unbounded (env (world s1))) by (rewrite Henv1; exact Hc).
  destruct (disable_probing_result s1 Hc1)
    as (s2 & Hrun2 & Hself2 & _ & Hpc & Hvel & Hacc).
  exists s1, s2.
  split; [exact Hrun1|]. split; [exact Hrun2|].
  split; [exact Hvel|]. split; [exact Hacc|]. split; [exact Hpc|].
  split; [rewrite Hself2; reflexivity|].
  rewrite Hvel, Hacc. split; split; intro H; rewrite H; reflexivity.
Qed.

Lemma probing_round_trip_witness :
  clock_unbounded (env (world (lab_state full_scene 0.8 1)))
  /\ exists s1 s2,
       returns enable_probing (lab_state full_scene 0.8 1) tt s1
       /\ returns disable_probing s1 tt s2
       /\ max_velocity_scaling_factor (world s2) = 0.8
       /\ max_acceleration_scaling_factor (world s2) = 1
       /\ path_constraints (world s2) = None
       /\ cartesian_constraints (self s2) = Some None
       /\ (max_velocity_scaling_factor (world s2)
           == max_velocity_scaling_factor (world (lab_state full_scene 0.8 1))
           <-> max_velocity_scaling_factor (world (lab_state full_scene 0.8 1))
               == 0.8)
       /\ (max_acceleration_scaling_factor (world s2)
           == max_acceleration_scaling_factor (world (lab_state full_scene 0.8 1))
           <-> max_acceleration_scaling_factor (world (lab_state full_scene 0.8 1))
               == 1).
Proof.
  split; [apply lab_clock_unbounded|].
  apply (probing_round_trip (lab_state full_scene 0.8 1)).
  apply lab_clock_unbounded.
Defined.

(** C5 (as stated) fails for a helper whose scaling factors are not 0.8
    and 1 when probing is enabled: started at full speed (velocity 1) and
    half acceleration (0.5), the round trip ends at 0.8 and 1. *)
Lemma probing_round_trip_changes_scaling :
  exists s1 s2,
    returns enable_probing (lab_state full_scene 1 0.5) tt s1
    /\ returns disable_probing s1 tt s2
    /\ ~ max_velocity_scaling_factor (world s2)
         == max_velocity_scaling_factor (world (lab_state full_scene 1 0.5))
    /\ ~ max_acceleration_scaling_factor (world s2)
         == max_acceleration_scaling_factor (world (lab_state full_scene 1 0.5)).
Proof.
  eexists. eexists. split; [|split; [|split]].
  - apply (monotone_returns enable_probing 10); [apply monotone_enable_probing|].
    vm_compute. reflexivity.
  - apply (monotone_returns disable_probing 10); [apply monotone_disable_probing|].
    vm_compute. reflexivity.
  - vm_compute. discriminate.
  - vm_compute. discriminate.
Qed.

Lemma relative_orientation_returns target_link_name reference_link_name s :
  exists q s0,
    __get_relative_orientation target_link_name reference_link_name s = Ok q s0.
Proof.
  unfold __get_relative_orientation. unfold_calls. run.
  eexists _, _. reflexivity.
Qed.

(** The constraints that [enable_probing] leaves in the move group are the
    ones built from the relative orientation at the time of the call. *)
Lemma enable_probing_sound fuel s s' q s0 :
  __get_relative_orientation "axis_6" "axis_0" s = Ok q s0 ->
  enable_probing fuel s = Ok tt s' ->
  path_constraints (world s') = Some (probing_constraints q).
Proof.
  unfold __get_relative_orientation. unfold_calls. run.
  unfold ret. intro Hq. inversion Hq; subst q s0. clear Hq.
  unfold enable_probing, __apply_constraints, __get_orientation_constraints,
    __get_relative_orientation, __get_position_constraints,
    __add_hollow_cylinder, __remove_cylinder.
  unfold_calls. run.
  intro H. apply bind_Ok in H. destruct H as (b1 & s1 & H1 & H).
  apply wait_quiet in H1. revert H. run.
  intro H. apply bind_Ok in H. destruct H as (b2 & s2 & H2 & H).
  apply wait_quiet in H2. revert H. run.
  intro H. apply bind_Ok in H. destruct H as (b3 & s3 & H3 & H).
  apply wait_quiet in H3. revert H. run.
  rewrite call_eq. intro H. inversion H; subst s'. clear H.
  cbn [world path_constraints record with_acceleration with_velocity snd].
  rewrite (quiet_constraints _ _ H3).
  cbn [world path_constraints record].
  rewrite (quiet_constraints _ _ H2), (quiet_constraints _ _ H1).
  reflexivity.
Qed.

(** C10.  [enable_probing] looks at none of the answers of its waits: in
    every world whose clock passes every deadline -- whatever the scene
    answers, so also when the hollow cylinder is never seen and the solid
    one never goes away -- it returns, having applied the path constraints
    that [__apply_constraints] builds (axis_6 held at its relative
    orientation [q] to axis_0, and the cylinder region) and set the
    velocity and acceleration scaling factors 0.01 and 0.1. *)
Theorem enable_probing_applies_unconditionally (s : State) :
  clock_unbounded (env (world s)) ->
  exists q s0 s' new,
    __get_relative_orientation "axis_6" "axis_0" s = Ok q s0
    /\ returns enable_probing s tt s'
    /\ trace (world s') = (new ++ trace (world s))%list
    /\ In (ESetPathConstraints (probing_constraints q)) new
    /\ In (ESetMaxVelocityScalingFactor 0.01) new
    /\ In (ESetMaxAccelerationScalingFactor 0.1) new
    /\ path_constraints (world s') = Some (probing_constraints q)
    /\ cartesian_constraints (self s') = Some (Some (probing_constraints q))
    /\ max_velocity_scaling_factor (world s') = 0.01
    /\ max_acceleration_scaling_factor (world s') = 0.1.
Proof.
  intro Hc.
  destruct (relative_orientation_returns "axis_6" "axis_0" s) as (q & s0 & Hq).
  destruct (enable_probing_result s Hc)
    as (c & p & file & pre & s_add & b & s_wait & post & s'
        & Hrun & (Hself & _ & Hpc & Hv & Ha) & (Htr & Hin & _) & Hw
        & (Hpost & _ & Hvel & Hacc)).
  assert (Hcq : c = probing_constraints q).
  { destruct Hrun as [fuel0 Hrun].
    pose proof (enable_probing_sound _ _ _ _ _ Hq (Hrun fuel0 (Nat.le_refl _)))
      as Hs.
    rewrite Hpc in Hs. inversion Hs. reflexivity. }
  subst c.
  destruct (returns_quiet _ _ _ _ _ _ Hw) as [_ _ _ _ _ (n & Hn & _)].
  exists q, s0, s'.
  exists (post ++ n ++ EAddMesh (hollow_cylinder_name (self s)) p file :: pre)%list.
  split; [exact Hq|].
  split; [exact Hrun|]. split; [|split; [|split; [|split]]].
  - rewrite Hpost, Hn, Htr. rewrite <- !app_assoc. reflexivity.
  - apply in_or_app. right. apply in_or_app. right. right. exact Hin.
  - apply in_or_app. left. exact Hvel.
  - apply in_or_app. left. exact Hacc.
  - repeat split; try assumption. rewrite Hself. reflexivity.
Qed.

Lemma enable_probing_applies_unconditionally_witness :
  clock_unbounded (env (world (lab_state empty_scene 0.8 1)))
  /\ exists q s0 s' new,
       __get_relative_orientation "axis_6" "axis_0" (lab_state empty_scene 0.8 1)
       = Ok q s0
       /\ returns enable_probing (lab_state empty_scene 0.8 1) tt s'
       /\ trace (world s') = (new ++ [])%list
       /\ In (ESetPathConstraints (probing_constraints q)) new
       /\ In (ESetMaxVelocityScalingFactor 0.01) new
       /\ In (ESetMaxAccelerationScalingFactor 0.1) new
       /\ path_constraints (world s') = Some (probing_constraints q)
       /\ cartesian_constraints (self s') = Some (Some (probing_constraints q))
       /\ max_velocity_scaling_factor (world s') = 0.01
       /\ max_acceleration_scaling_factor (world s') = 0.1.
Proof.
  split; [apply lab_clock_unbounded|].
  apply (enable_probing_applies_unconditionally (lab_state empty_scene 0.8 1)).
  apply lab_clock_unbounded.
Defined.

(** ** The relative orientation *)

(** C2 (as amended).  When the two links have the identity orientation
    (0, 0, 0, 1), [__get_relative_orientation] returns (0, 0, 0, -1): the
    opposite of the identity quaternion, which stands for the same
    rotation, and not (0, 0, 0, 1) itself. *)
Theorem relative_orientation_of_identities (s : State)
    (target_link_name reference_link_name : string) :
  quaternion_eq (orientation (current_pose (env (world s)) target_link_name))
    (mkQuaternion 0 0 0 1) ->
  quaternion_eq (orientation (current_pose (env (world s)) reference_link_name))
    (mkQuaternion 0 0 0 1) ->
  exists q s',
    __get_relative_orientation target_link_name reference_link_name s = Ok q s'
    /\ quaternion_eq q (mkQuaternion 0 0 0 (-1))
    /\ quaternion_eq q (quaternion_opposite (mkQuaternion 0 0 0 1)).
Proof.
  intros (Hx & Hy & Hz & Hw) (Ha & Hb & Hc & Hd).
  unfold __get_relative_orientation. unfold_calls. run.
  eexists _, _. split; [reflexivity|].
  destruct (orientation (current_pose (env (world s)) target_link_name))
    as [x y z w].
  destruct (orientation (current_pose (env (world s)) reference_link_name))
    as [a b c d].
  cbn in *. repeat split; cbn; rewrite ?Hx, ?Hy, ?Hz, ?Hw, ?Ha, ?Hb, ?Hc, ?Hd; ring.
Qed.

Lemma relative_orientation_of_identities_witness :
  exists q s',
    __get_relative_orientation "axis_6" "axis_0" (lab_state full_scene 0.8 1)
    = Ok q s'
    /\ quaternion_eq q (mkQuaternion 0 0 0 (-1))
    /\ quaternion_eq q (quaternion_opposite (mkQuaternion 0 0 0 1)).
Proof.
  apply (relative_orientation_of_identities (lab_state full_scene 0.8 1)
           "axis_6" "axis_0");
    repeat split; vm_compute; reflexivity.
Defined.

(** C2 (as stated) fails: with both links at the identity orientation the
    result is not the quaternion (0, 0, 0, 1); its [w] is -1. *)
Lemma relative_orientation_is_not_identity :
  quaternion_eq
    (orientation (current_pose (env (world (lab_state full_scene 0.8 1))) "axis_6"))
    (mkQuaternion 0 0 0 1)
  /\ quaternion_eq
       (orientation (current_pose (env (world (lab_state full_scene 0.8 1))) "axis_0"))
       (mkQuaternion 0 0 0 1)
  /\ exists q s',
       __get_relative_orientation "axis_6" "axis_0" (lab_state full_scene 0.8 1)
       = Ok q s'
       /\ qw q == -1
       /\ ~ quaternion_eq q (mkQuaternion 0 0 0 1).
Proof.
  split; [repeat split; vm_compute; reflexivity|].
  split; [repeat split; vm_compute; reflexivity|].
  eexists _, _. split; [vm_compute; reflexivity|].
  split; [vm_compute; reflexivity|].
  intros (_ & _ & _ & H). vm_compute in H. discriminate.
Qed.

(** ** Planning the probing motion *)

(** C6.  With the end effector at height 0.30, [plan_probing(-0.06)]
    builds a waypoint list of exactly one pose, at height 0.24, with the x,
    the y and the orientation of the current pose; and, the attribute
    [cartesian_constraints] being set, this list is what it hands to
    [compute_cartesian_path], whose answer it returns. *)
Theorem plan_probing_example (s : State) :
  pz (position (current_pose (env (world s)) default_link)) == 0.30 ->
  exists p,
    probing_waypoints (current_pose (env (world s)) default_link) (-0.06) = [p]
    /\ pz (position p) == 0.24
    /\ px (position p) = px (position (current_pose (env (world s)) default_link))
    /\ py (position p) = py (position (current_pose (env (world s)) default_link))
    /\ orientation p = orientation (current_pose (env (world s)) default_link)
    /\ forall c,
         cartesian_constraints (self s) = Some c ->
         exists plan fraction s',
           plan_probing (-0.06) s = Ok (plan, fraction) s'
           /\ trace (world s')
              = EComputeCartesianPath [p] 0.01 0.0 c plan fraction
                :: EPlan
                :: EGetCurrentPose default_link (current_pose (env (world s)) default_link)
                :: trace (world s).
Proof.
  intro Hz. eexists. split; [reflexivity|]. cbn [position pz px py orientation].
  split; [rewrite Hz; reflexivity|]. repeat split.
  intros c Hc. rewrite (plan_probing_eq _ _ _ Hc).
  eexists _, _, _. split; [apply f_equal2; [apply surjective_pairing|reflexivity]|].
  reflexivity.
Qed.

Lemma plan_probing_example_witness :
  pz (position (current_pose (env (world (lab_state_cleared full_scene 0.01 0.1))) default_link))
  == 0.30
  /\ exists p,
       probing_waypoints
         (current_pose (env (world (lab_state_cleared full_scene 0.01 0.1))) default_link)
         (-0.06) = [p]
       /\ pz (position p) == 0.24
       /\ px (position p) = 0.2
       /\ py (position p) = 0.1
       /\ orientation p = mkQuaternion 0 0 0 1
       /\ forall c,
            cartesian_constraints (self (lab_state_cleared full_scene 0.01 0.1))
            = Some c ->
            exists plan fraction s',
              plan_probing (-0.06) (lab_state_cleared full_scene 0.01 0.1)
              = Ok (plan, fraction) s'
              /\ trace (world s')
                 = [EComputeCartesianPath [p] 0.01 0.0 c plan fraction; EPlan;
                    EGetCurrentPose default_link
                      (mkPose (mkPoint 0.2 0.1 0.30) (mkQuaternion 0 0 0 1))].
Proof.
  split; [reflexivity|].
  apply (plan_probing_example (lab_state_cleared full_scene 0.01 0.1)).
  reflexivity.
Defined.

(** C7 (as amended).  [plan_probing(z)] only plans: it does not move the
    robot.  A [plan_probing(-z)] that follows it at once therefore starts
    from the same current pose and builds the waypoint that it builds when
    called alone: the current pose with [-z] added to its height, x, y and
    orientation unchanged.  The first call aims at the current height plus
    [z], the second at the current height plus [-z], not at the original
    height.  With the attribute [cartesian_constraints] set, both calls
    return, each hands its one waypoint to the planner, and the second
    answer is the one a lone [plan_probing(-z)] gets. *)
Theorem plan_probing_back_to_back (s : State) (z : Q) :
  exists p1 p2,
    probing_waypoints (current_pose (env (world s)) default_link) z = [p1]
    /\ probing_waypoints (current_pose (env (world s)) default_link) (- z) = [p2]
    /\ pz (position p1)
       = pz (position (current_pose (env (world s)) default_link)) + z
    /\ pz (position p2)
       = pz (position (current_pose (env (world s)) default_link)) + - z
    /\ px (position p2) = px (position (current_pose (env (world s)) default_link))
    /\ py (position p2) = py (position (current_pose (env (world s)) default_link))
    /\ orientation p2 = orientation (current_pose (env (world s)) default_link)
    /\ forall c,
         cartesian_constraints (self s) = Some c ->
         exists plan1 fraction1 s1 plan2 fraction2 s2 s_alone,
           plan_probing z s = Ok (plan1, fraction1) s1
           /\ current_pose (env (world s1)) default_link
              = current_pose (env (world s)) default_link
           /\ plan_probing (- z) s1 = Ok (plan2, fraction2) s2
           /\ plan_probing (- z) s = Ok (plan2, fraction2) s_alone
           /\ trace (world s1)
              = EComputeCartesianPath [p1] 0.01 0.0 c plan1 fraction1
                :: EPlan
                :: EGetCurrentPose default_link
                     (current_pose (env (world s)) default_link)
                :: trace (world s)
           /\ trace (world s2)
              = EComputeCartesianPath [p2] 0.01 0.0 c plan2 fraction2
                :: EPlan
                :: EGetCurrentPose default_link
                     (current_pose (env (world s)) default_link)
                :: trace (world s1).
Proof.
  eexists _, _. split; [reflexivity|]. split; [reflexivity|].
  cbn [position pz px py orientation]. repeat split.
  intros c Hc. rewrite (plan_probing_eq z s c Hc).
  eexists _, _, _, _, _, _, _.
  split; [apply f_equal2; [apply surjective_pairing|reflexivity]|].
  split; [reflexivity|]. split.
  { rewrite plan_probing_eq with (c := c) by exact Hc.
    apply f_equal2; [apply surjective_pairing|reflexivity]. }
  split.
  { rewrite (plan_probing_eq (- z) s c Hc).
    apply f_equal2; [apply surjective_pairing|reflexivity]. }
  split; reflexivity.
Qed.

Lemma plan_probing_back_to_back_witness :
  exists p1 p2,
    probing_waypoints
      (current_pose (env (world (lab_state_cleared full_scene 0.01 0.1)))
         default_link) (-0.06) = [p1]
    /\ probing_waypoints
         (current_pose (env (world (lab_state_cleared full_scene 0.01 0.1)))
            default_link) (- -0.06) = [p2]
    /\ pz (position p1) = 0.30 + -0.06
    /\ pz (position p2) = 0.30 + - -0.06
    /\ px (position p2) = 0.2
    /\ py (position p2) = 0.1
    /\ orientation p2 = mkQuaternion 0 0 0 1
    /\ forall c,
         cartesian_constraints (self (lab_state_cleared full_scene 0.01 0.1))
         = Some c ->
         exists plan1 fraction1 s1 plan2 fraction2 s2 s_alone,
           plan_probing (-0.06) (lab_state_cleared full_scene 0.01 0.1)
           = Ok (plan1, fraction1) s1
           /\ current_pose (env (world s1)) default_link
              = mkPose (mkPoint 0.2 0.1 0.30) (mkQuaternion 0 0 0 1)
           /\ plan_probing (- -0.06) s1 = Ok (plan2, fraction2) s2
           /\ plan_probing (- -0.06) (lab_state_cleared full_scene 0.01 0.1)
              = Ok (plan2, fraction2) s_alone
           /\ trace (world s1)
              = [EComputeCartesianPath [p1] 0.01 0.0 c plan1 fraction1; EPlan;
                 EGetCurrentPose default_link
                   (mkPose (mkPoint 0.2 0.1 0.30) (mkQuaternion 0 0 0 1))]
           /\ trace (world s2)
              = EComputeCartesianPath [p2] 0.01 0.0 c plan2 fraction2
                :: EPlan
                :: EGetCurrentPose default_link
                     (mkPose (mkPoint 0.2 0.1 0.30) (mkQuaternion 0 0 0 1))
                :: trace (world s1).
Proof.
  apply (plan_probing_back_to_back (lab_state_cleared full_scene 0.01 0.1)
           (-0.06)).
Defined.

(** C7 (as stated) fails: from height 0.30, [plan_probing(-0.06)] followed
    at once by [plan_probing(0.06)] aims at 0.36, which is 0.06 away from
    the original height. *)
Lemma plan_probing_back_does_not_aim_at_start :
  exists r1 s1 plan2 fraction2 s2 p2,
    plan_probing (-0.06) (lab_state_cleared full_scene 0.01 0.1) = Ok r1 s1
    /\ plan_probing 0.06 s1 = Ok (plan2, fraction2) s2
    /\ current_pose (env (world s1)) default_link
       = current_pose (env (world (lab_state_cleared full_scene 0.01 0.1))) default_link
    /\ hd_error (trace (world s2))
       = Some (EComputeCartesianPath [p2] 0.01 0.0 None plan2 fraction2)
    /\ pz (position p2) == 0.36
    /\ ~ Qabs (pz (position p2) - 0.30) <= 0.000001.
Proof.
  eexists _, _, _, _, _, _.
  split; [vm_compute; reflexivity|].
  split; [vm_compute; reflexivity|].
  split; [reflexivity|]. split; [reflexivity|].
  split; [vm_compute; reflexivity|].
  vm_compute. intro H. apply H. reflexivity.
Qed.

(** C9.  A freshly constructed helper has no attribute
    [cartesian_constraints]: [__init__] never assigns it.  [plan_probing]
    therefore raises [AttributeError] when it reads the attribute, after
    [get_current_pose] and [plan] and before any Cartesian path has been
    asked for. *)
Theorem plan_probing_on_fresh_helper_raises (fuel : nat) (w : World)
    (s : State) (z : Q) :
  new fuel w = Ok tt s ->
  cartesian_constraints (self s) = None
  /\ exists s',
       plan_probing z s = Raised (AttributeError "cartesian_constraints") s'
       /\ trace (world s')
          = EPlan :: EGetCurrentPose default_link (current_pose (env (world s)) default_link)
            :: trace (world s).
Proof.
  intro H. pose proof (new_leaves_constraints_unset _ _ _ H) as Hnone.
  split; [exact Hnone|].
  exists (before_cartesian_path s). split; [|reflexivity].
  apply plan_probing_unset. exact Hnone.
Qed.

Lemma plan_probing_on_fresh_helper_raises_witness :
  exists s,
    new 12 (lab_world full_scene 0.8 1) = Ok tt s
    /\ self s = constructed
    /\ cartesian_constraints (self s) = None
    /\ exists s',
         plan_probing (-0.06) s = Raised (AttributeError "cartesian_constraints") s'
         /\ trace (world s')
            = EPlan :: EGetCurrentPose default_link (current_pose (env (world s)) default_link)
              :: trace (world s).
Proof.
  eexists. split; [vm_compute; reflexivity|]. split; [reflexivity|].
  apply (plan_probing_on_fresh_helper_raises 12 (lab_world full_scene 0.8 1)).
  vm_compute. reflexivity.
Defined.

(** ** Adding and removing the cylinder *)

(** C8 (as amended).  [__add_cylinder] and [__remove_cylinder] return what
    their last wait returns and do nothing after it: when that wait times
    out the operation returns false, and the scene calls issued before it
    are not undone.  The first wait of [__remove_cylinder] is not looked
    at: whatever it answers, the two remove calls are issued next. *)
Theorem scene_operation_returns_last_wait (fuel : nat) (timeout : Q) (s : State) :
  (forall b s',
     __wait_for_state_update fuel (cylinder_name (self s)) true timeout
       (after_add_cylinder s) = Ok b s' ->
     __add_cylinder fuel timeout s = Ok b s'
     /\ scene_changes (trace (world s'))
        = EAddCylinder (cylinder_name (self s)) (cylinder_pose (self s))
            (cylinder_height (self s)) (cylinder_radius (self s))
          :: scene_changes (trace (world s)))
  /\ (forall b1 s1 b s',
        __wait_for_state_update fuel (cylinder_name (self s)) true timeout s
        = Ok b1 s1 ->
        __wait_for_state_update fuel (cylinder_name (self s)) false timeout
          (after_remove_calls s1) = Ok b s' ->
        __remove_cylinder fuel timeout s = Ok b s'
        /\ scene_changes (trace (world s'))
           = ERemoveWorldObject (cylinder_name (self s))
             :: ERemoveAttachedObject (cylinder_name (self s))
             :: scene_changes (trace (world s))).
Proof.
  split.
  - intros b s' H. split; [rewrite add_cylinder_eq; exact H|].
    destruct (wait_quiet _ _ _ _ _ _ _ H) as [_ _ _ _ _ (n & Hn & Hobs)].
    rewrite Hn, scene_changes_app, (observations_change_nothing _ Hobs).
    reflexivity.
  - intros b1 s1 b s' H1 H2.
    split; [rewrite (remove_cylinder_eq _ _ _ _ _ H1); exact H2|].
    destruct (wait_quiet _ _ _ _ _ _ _ H1) as [Hs _ _ _ _ (n1 & Hn1 & Hobs1)].
    destruct (wait_quiet _ _ _ _ _ _ _ H2) as [_ _ _ _ _ (n2 & Hn2 & Hobs2)].
    rewrite Hn2, scene_changes_app, (observations_change_nothing _ Hobs2).
    cbn. rewrite Hs. f_equal. f_equal.
    change (filter scene_change (trace (world s1)))
      with (scene_changes (trace (world s1))).
    rewrite Hn1, scene_changes_app, (observations_change_nothing _ Hobs1).
    reflexivity.
Qed.

Lemma scene_operation_returns_last_wait_witness :
  (exists s',
     __add_cylinder 12 10 (lab_state empty_scene 0.8 1) = Ok false s'
     /\ scene_changes (trace (world s'))
        = [EAddCylinder "full_cylinder" (cylinder_pose constructed) 0.08 0.04])
  /\ (exists s',
        __remove_cylinder 12 4 (lab_state full_scene 0.8 1) = Ok false s'
        /\ scene_changes (trace (world s'))
           = [ERemoveWorldObject "full_cylinder";
              ERemoveAttachedObject "full_cylinder"]).
Proof.
  split.
  - eexists.
    apply (proj1 (scene_operation_returns_last_wait 12 10
                    (lab_state empty_scene 0.8 1))).
    vm_compute. reflexivity.
  - eexists.
    eapply (proj2 (scene_operation_returns_last_wait 12 4
                     (lab_state full_scene 0.8 1)));
      vm_compute; reflexivity.
Defined.

(** C8 (as stated) fails for the first wait of [__remove_cylinder]: where
    the solid cylinder is never known to the scene that wait times out,
    and yet the two remove calls are issued after it and the operation
    returns true. *)
Lemma remove_cylinder_goes_on_after_timeout :
  exists s1 s',
    returns (fun fuel => __wait_for_state_update fuel "full_cylinder" true 4)
      (lab_state empty_scene 0.8 1) false s1
    /\ returns (fun fuel => __remove_cylinder fuel 4)
         (lab_state empty_scene 0.8 1) true s'
    /\ scene_changes (trace (world s1)) = []
    /\ scene_changes (trace (world s'))
       = [ERemoveWorldObject "full_cylinder";
          ERemoveAttachedObject "full_cylinder"].
Proof.
  eexists _, _. split; [|split; [|split]].
  - apply (monotone_returns _ 10 _ _ _ (monotone_wait "full_cylinder" true 4)).
    vm_compute. reflexivity.
  - apply (monotone_returns _ 10 _ _ _ (monotone_remove_cylinder 4)).
    vm_compute. reflexivity.
  - vm_compute. reflexivity.
  - vm_compute. reflexivity.
Qed.

(** ** Further properties of the wait *)

Section WaitCounts.

Variables (s0 : State) (name : string) (expected : bool) (timeout : Q).

Let start0 := time_readings (env (world s0)) (time_reads (world s0)).
Let sec0 (i : nat) :=
  time_readings (env (world s0)) (time_reads (world s0) + 1 + i).

(** The loop entered at its i-th test leaves after [n] membership checks
    in all, each made in time on a running node, the last one alone having
    seen the expected state, with one sleep and one clock reading after
    every check that did not see it. *)
Lemma wait_loop_counts fuel :
  forall i s b s',
    at_test s0 i s ->
    (forall j, (j < i)%nat ->
       in_time s0 timeout j /\ alive s0 j /\ ~ observed s0 name expected j) ->
    wait_loop fuel name expected timeout start0 (sec0 i) s = Ok b s' ->
    exists n,
      polls (world s') = (polls (world s0) + n)%nat
      /\ (i + hit b <= n)%nat
      /\ (forall j, (j < n)%nat -> in_time s0 timeout j /\ alive s0 j)
      /\ (forall j, (j + hit b < n)%nat -> ~ observed s0 name expected j)
      /\ (b = true -> observed s0 name expected (n - 1))
      /\ count_sleeps (trace (world s'))
         = (count_sleeps (trace (world s)) + (n - i - hit b))%nat
      /\ time_reads (world s') = (time_reads (world s) + (n - i - hit b))%nat.
Proof.
  induction fuel as [|fuel IH]; intros i s b s' Hat Hpast H; [discriminate|].
  destruct Hat as (He & Hr & Hc & Hp).
  cbn [wait_loop] in H.
  assert (Hdone : forall s1,
            polls (world s1) = polls (world s) ->
            count_sleeps (trace (world s1)) = count_sleeps (trace (world s)) ->
            time_reads (world s1) = time_reads (world s) ->
            exists n,
              polls (world s1) = (polls (world s0) + n)%nat
              /\ (i + hit false <= n)%nat
              /\ (forall j, (j < n)%nat -> in_time s0 timeout j /\ alive s0 j)
              /\ (forall j, (j + hit false < n)%nat -> ~ observed s0 name expected j)
              /\ (false = true -> observed s0 name expected (n - 1))
              /\ count_sleeps (trace (world s1))
                 = (count_sleeps (trace (world s)) + (n - i - hit false))%nat
              /\ time_reads (world s1)
                 = (time_reads (world s) + (n - i - hit false))%nat).
  { intros s1 E1 E2 E3. exists i. cbn [hit].
    split; [congruence|]. split; [lia|].
    split; [intros j Hj; destruct (Hpast j Hj) as (A & B & _); split; assumption|].
    split; [intros j Hj; apply (Hpast j); lia|].
    split; [discriminate|]. split; lia. }
  destruct (Qltb (sec0 i - start0) timeout) eqn:Hg.
  - apply Qltb_true in Hg.
    unfold_calls. revert H. run. rewrite He, Hc.
    destruct (shutdown_flags _ _) eqn:Hflag; cbn [negb].
    + unfold ret. intro H. inversion H; subst. apply Hdone; reflexivity.
    + run. rewrite He, Hp.
      destruct (Bool.eqb _ _) eqn:Hobs.
      * unfold ret. intro H. inversion H; subst.
        apply Bool.eqb_prop in Hobs.
        exists (S i). cbn [hit polls world record next_poll next_shutdown_check
                         trace time_reads].
        split; [lia|]. split; [lia|]. split; [|split; [|split; [|split]]].
        -- intros j Hj. destruct (Nat.eq_dec j i) as [->|Hne].
           ++ split; [exact Hg|exact Hflag].
           ++ destruct (Hpast j) as (A & B & _); [lia|]. split; assumption.
        -- intros j Hj. apply (Hpast j). lia.
        -- intros _. replace (S i - 1)%nat with i by lia.
           unfold observed. symmetry. exact Hobs.
        -- unfold count_sleeps. cbn [filter is_sleep]. lia.
        -- lia.
      * run. rewrite He, Hr. intro H.
        replace (time_reads (world s0) + 2 + i)%nat
          with (time_reads (world s0) + 1 + S i)%nat in H by lia.
        apply (IH (S i)) in H.
        -- destruct H as (n & A & B & C & D & E & F & G).
           exists n. split; [exact A|]. split; [lia|]. split; [exact C|].
           split; [exact D|]. split; [exact E|].
           cbn [trace world record next_poll next_shutdown_check
                  next_time_reading time_reads] in F, G.
           unfold count_sleeps in *. cbn [filter is_sleep List.length] in F.
           split; lia.
        -- repeat split; cbn; try assumption; lia.
        -- intros j Hj. destruct (Nat.eq_dec j i) as [->|Hne].
           ++ repeat split; [exact Hg|exact Hflag|].
              unfold observed. intro Heq. rewrite Heq in Hobs.
              rewrite Bool.eqb_reflx in Hobs. discriminate.
           ++ apply Hpast. lia.
  - unfold ret in H. inversion H; subst. apply Hdone; reflexivity.
Qed.

End WaitCounts.

Lemma wait_counts fuel name expected timeout s b s' :
  __wait_for_state_update fuel name expected timeout s = Ok b s' ->
  (hit b <= checks_made s s')%nat
  /\ (forall j, (j < checks_made s s')%nat -> in_time s timeout j /\ alive s j)
  /\ (forall j, (j + hit b < checks_made s s')%nat -> ~ observed s name expected j)
  /\ (b = true -> observed s name expected (checks_made s s' - 1))
  /\ count_sleeps (trace (world s'))
     = (count_sleeps (trace (world s)) + (checks_made s s' - hit b))%nat
  /\ time_reads (world s')
     = (time_reads (world s) + 2 + (checks_made s s' - hit b))%nat.
Proof.
  rewrite wait_eq. intro H.
  destruct (wait_loop_counts s name expected timeout fuel 0 _ b s' (at_test_0 s))
    with (2 := H) as (n & A & B & C & D & E & F & G).
  { intros j Hj. lia. }
  assert (Hn : checks_made s s' = n) by (unfold checks_made; lia).
  rewrite Hn. cbn in F, G. unfold count_sleeps in *. cbn in F.
  repeat split; try assumption; try lia.
  - apply C. assumption.
  - apply C. assumption.
Qed.

Lemma wait_returns_by name expected timeout s n :
  ~ in_time s timeout n ->
  exists b s',
    returns (fun fuel => __wait_for_state_update fuel name expected timeout) s b s'.
Proof.
  intro Hend.
  destruct (wait_loop_returns s name expected timeout n 0 (after_two_readings s)
              (S n) (at_test_0 s) Hend (Nat.lt_succ_diag_r n)) as (b & s' & H).
  exists b, s', (S n). intros fuel Hfuel.
  rewrite wait_eq. eapply wait_loop_fuel; eassumption.
Qed.

Lemma elapsed_lower s :
  first_readings_ordered s -> sleep_advances s ->
  forall n, inject_Z (Z.of_nat n) * 0.1 <= elapsed s n.
Proof.
  intros Hfirst Hsleep. unfold elapsed.
  induction n as [|n IH].
  - replace (time_reads (world s) + 1 + 0)%nat
      with (time_reads (world s) + 1)%nat by lia.
    unfold first_readings_ordered in Hfirst.
    change (inject_Z (Z.of_nat 0)) with 0. lra.
  - pose proof (Hsleep n) as Hn.
    replace (time_reads (world s) + 1 + S n)%nat
      with (time_reads (world s) + 2 + n)%nat by lia.
    replace (Z.of_nat (S n)) with (Z.of_nat n + 1)%Z by lia.
    rewrite inject_Z_plus. change (inject_Z 1) with 1. lra.
Qed.

Lemma never_observed_false fuel name expected timeout s b s' :
  (forall k, ~ observed s name expected k) ->
  __wait_for_state_update fuel name expected timeout s = Ok b s' ->
  b = false.
Proof.
  intros Hnever H. apply wait_sound in H. destruct b; [|reflexivity].
  destruct (proj1 H eq_refl) as (k & _ & Hk). exfalso. exact (Hnever k Hk).
Qed.

(** X1.  A wait only observes.  Whatever it answers, the calls it has made
    are clock readings, shutdown checks, sleeps and scene queries: nothing
    has been added to or removed from the scene, and the object, the
    scaling factors and the path constraints are what they were. *)
Theorem wait_only_observes (s : State) (name : string) (expected : bool)
    (timeout : Q) :
  clock_unbounded (env (world s)) ->
  exists b s',
    returns (fun fuel => __wait_for_state_update fuel name expected timeout) s b s'
    /\ quiet s s'
    /\ scene_changes (trace (world s')) = scene_changes (trace (world s)).
Proof.
  intro Hc.
  destruct (wait_returns name expected timeout s Hc) as (b & s' & Hw).
  exists b, s'. split; [exact Hw|].
  pose proof (returns_quiet _ _ _ _ _ _ Hw) as Hq. split; [exact Hq|].
  destruct Hq as [_ _ _ _ _ (n & Hn & Hobs)].
  rewrite Hn, scene_changes_app, (observations_change_nothing _ Hobs).
  reflexivity.
Qed.

Lemma wait_only_observes_witness :
  exists b s',
    returns (fun fuel => __wait_for_state_update fuel "hollow_cylinder" false 4)
      (lab_state full_scene 0.8 1) b s'
    /\ quiet (lab_state full_scene 0.8 1) s'
    /\ scene_changes (trace (world s'))
       = scene_changes (trace (world (lab_state full_scene 0.8 1))).
Proof.
  apply (wait_only_observes (lab_state full_scene 0.8 1)).
  apply lab_clock_unbounded.
Defined.

(** X2.  The account of a wait.  When it returns after [n] membership
    checks, each of them was made in time on a running node; only the last
    one can have seen the expected state, and it has exactly when the
    answer is true; every check that did not see it was followed by one
    [rospy.sleep] and one clock reading, so a wait that succeeds at its
    first check does not sleep at all. *)
Theorem wait_account (s : State) (name : string) (expected : bool)
    (timeout : Q) :
  clock_unbounded (env (world s)) ->
  exists b s',
    returns (fun fuel => __wait_for_state_update fuel name expected timeout) s b s'
    /\ (hit b <= checks_made s s')%nat
    /\ (forall j, (j < checks_made s s')%nat ->
          in_time s timeout j /\ alive s j)
    /\ (forall j, (j + hit b < checks_made s s')%nat ->
          ~ observed s name expected j)
    /\ (b = true -> observed s name expected (checks_made s s' - 1))
    /\ count_sleeps (trace (world s'))
       = (count_sleeps (trace (world s)) + (checks_made s s' - hit b))%nat
    /\ time_reads (world s')
       = (time_reads (world s) + 2 + (checks_made s s' - hit b))%nat.
Proof.
  intro Hc.
  destruct (wait_returns name expected timeout s Hc) as (b & s' & fuel0 & H).
  exists b, s'. split; [exists fuel0; exact H|].
  eapply wait_counts. apply (H fuel0). lia.
Qed.

Lemma wait_account_witness :
  exists b s',
    returns (fun fuel => __wait_for_state_update fuel "full_cylinder" true 4)
      (lab_state late_scene 0.8 1) b s'
    /\ (hit b <= checks_made (lab_state late_scene 0.8 1) s')%nat
    /\ (forall j, (j < checks_made (lab_state late_scene 0.8 1) s')%nat ->
          in_time (lab_state late_scene 0.8 1) 4 j
          /\ alive (lab_state late_scene 0.8 1) j)
    /\ (forall j, (j + hit b < checks_made (lab_state late_scene 0.8 1) s')%nat ->
          ~ observed (lab_state late_scene 0.8 1) "full_cylinder" true j)
    /\ (b = true ->
        observed (lab_state late_scene 0.8 1) "full_cylinder" true
          (checks_made (lab_state late_scene 0.8 1) s' - 1))
    /\ count_sleeps (trace (world s'))
       = (count_sleeps (trace (world (lab_state late_scene 0.8 1)))
          + (checks_made (lab_state late_scene 0.8 1) s' - hit b))%nat
    /\ time_reads (world s')
       = (time_reads (world (lab_state late_scene 0.8 1)) + 2
          + (checks_made (lab_state late_scene 0.8 1) s' - hit b))%nat.
Proof.
  apply (wait_account (lab_state late_scene 0.8 1)).
  apply lab_clock_unbounded.
Defined.

(** X3.  On a node that has been shut down a wait gives up at once: it
    returns false without a single membership check, also when the scene
    is already in the expected state. *)
Theorem wait_gives_up_on_shutdown (fuel : nat) (s : State) (name : string)
    (expected : bool) (timeout : Q) :
  shutdown_flags (env (world s)) (shutdown_checks (world s)) = true ->
  exists s',
    __wait_for_state_update (S fuel) name expected timeout s = Ok false s'
    /\ checks_made s s' = 0%nat
    /\ count_sleeps (trace (world s')) = count_sleeps (trace (world s)).
Proof.
  intro Hflag. rewrite wait_eq. cbn [wait_loop]. unfold after_two_readings.
  destruct (Qltb _ _).
  - unfold_calls. run. rewrite Hflag. cbn [negb]. unfold ret.
    eexists. split; [reflexivity|]. unfold checks_made. cbn. split; [lia|].
    reflexivity.
  - unfold ret. eexists. split; [reflexivity|]. unfold checks_made. cbn.
    split; [lia|]. reflexivity.
Qed.

Lemma wait_gives_up_on_shutdown_witness :
  observed (stopped_state full_scene) "full_cylinder" true 0
  /\ exists s',
       __wait_for_state_update 5 "full_cylinder" true 4 (stopped_state full_scene)
       = Ok false s'
       /\ checks_made (stopped_state full_scene) s' = 0%nat
       /\ count_sleeps (trace (world s'))
          = count_sleeps (trace (world (stopped_state full_scene))).
Proof.
  split; [reflexivity|].
  apply (wait_gives_up_on_shutdown 4 (stopped_state full_scene)).
  reflexivity.
Defined.

(** X4.  The number of scene queries of a wait is bounded by its timeout.
    With a clock that does not run backwards before the loop and that
    every [rospy.sleep(0.1)] advances by at least a tenth of a second, the
    wait returns, and the check number [n] was made after at least
    [(n - 1) / 10] seconds, hence [(n - 1) / 10 < timeout]: a four-second
    wait asks the scene at most forty times. *)
Theorem wait_checks_bounded (s : State) (name : string) (expected : bool)
    (timeout : Q) :
  first_readings_ordered s -> sleep_advances s ->
  exists b s',
    returns (fun fuel => __wait_for_state_update fuel name expected timeout) s b s'
    /\ ((1 <= checks_made s s')%nat ->
        inject_Z (Z.of_nat (checks_made s s' - 1)) * 0.1 < timeout).
Proof.
  intros Hfirst Hsleep.
  pose proof (elapsed_lower s Hfirst Hsleep) as Hlow.
  assert (Hend : ~ in_time s timeout (Z.to_nat (Qceiling (timeout * 10)))).
  { unfold in_time. specialize (Hlow (Z.to_nat (Qceiling (timeout * 10)))).
    intro Hin.
    assert (timeout * 10 <= inject_Z (Z.of_nat (Z.to_nat (Qceiling (timeout * 10))))).
    { apply Qle_trans with (inject_Z (Qceiling (timeout * 10)));
        [apply Qle_ceiling|].
      rewrite <- Zle_Qle. lia. }
    lra. }
  destruct (wait_returns_by name expected timeout s _ Hend) as (b & s' & fuel0 & H).
  exists b, s'. split; [exists fuel0; exact H|].
  intro Hn.
  destruct (wait_counts _ _ _ _ _ _ _ (H fuel0 (Nat.le_refl _)))
    as (_ & Hin & _).
  destruct (Hin (checks_made s s' - 1)%nat) as [Ht _]; [lia|].
  unfold in_time in Ht. specialize (Hlow (checks_made s s' - 1)%nat). lra.
Qed.

Lemma wait_checks_bounded_witness :
  first_readings_ordered (lab_state empty_scene 0.8 1)
  /\ sleep_advances (lab_state empty_scene 0.8 1)
  /\ exists b s',
       returns (fun fuel => __wait_for_state_update fuel "full_cylinder" true 4)
         (lab_state empty_scene 0.8 1) b s'
       /\ ((1 <= checks_made (lab_state empty_scene 0.8 1) s')%nat ->
           inject_Z (Z.of_nat (checks_made (lab_state empty_scene 0.8 1) s' - 1))
           * 0.1 < 4).
Proof.
  assert (H1 : first_readings_ordered (lab_state empty_scene 0.8 1)).
  { vm_compute. discriminate. }
  assert (H2 : sleep_advances (lab_state empty_scene 0.8 1)).
  { intro k.
    cbn [lab_state world env lab_world lab_env time_readings time_reads].
    apply Qle_trans with (inject_Z (Z.of_nat (0 + 1 + k) + 1)).
    - rewrite inject_Z_plus. change (inject_Z 1) with 1. lra.
    - rewrite <- Zle_Qle. lia. }
  split; [exact H1|]. split; [exact H2|].
  apply (wait_checks_bounded (lab_state empty_scene 0.8 1)); assumption.
Defined.

(** ** Further properties of the constraints *)

(** X5.  [__get_relative_orientation] computes the opposite of the
    relative orientation.  It always returns, and its result is, component
    by component, the opposite of the product of the conjugate of the
    first link's orientation with the second link's orientation: changing
    the sign of [w] where the conjugate changes the signs of [x], [y] and
    [z] changes the sign of the whole product.  The call changes nothing:
    it only asks for the two poses, the first link first. *)
Theorem relative_orientation_is_opposite (s : State)
    (target_link_name reference_link_name : string) :
  exists q s',
    __get_relative_orientation target_link_name reference_link_name s = Ok q s'
    /\ quaternion_eq q
         (quaternion_opposite
            (quaternion_multiply
               (quaternion_conjugate
                  (orientation (current_pose (env (world s)) target_link_name)))
               (orientation (current_pose (env (world s)) reference_link_name))))
    /\ kept s s'
    /\ trace (world s')
       = EGetCurrentPose reference_link_name
           (current_pose (env (world s)) reference_link_name)
         :: EGetCurrentPose target_link_name
              (current_pose (env (world s)) target_link_name)
         :: trace (world s).
Proof.
  unfold __get_relative_orientation. unfold_calls. run.
  eexists _, _. split; [reflexivity|].
  destruct (orientation (current_pose (env (world s)) target_link_name))
    as [x y z w].
  destruct (orientation (current_pose (env (world s)) reference_link_name))
    as [a b c d].
  cbn [qx qy qz qw].
  split; [|split].
  - repeat split; cbn; ring.
  - constructor; reflexivity.
  - reflexivity.
Qed.

(** X7.  What [__apply_constraints] applies.  It always returns; the move
    group and [self.cartesian_constraints] then hold the same constraint
    set, made of one orientation constraint -- link axis_6 in the frame of
    axis_0, at the relative orientation computed at the time of the call,
    with tolerance 0.1 about each axis and weight 1 -- and one position
    constraint whose region is a single cylinder of height 1 and radius
    0.01.  The scaling factors and the scene are not touched. *)
Theorem apply_constraints_shape (s : State) :
  exists q s0 c region s',
    __get_relative_orientation "axis_6" "axis_0" s = Ok q s0
    /\ __apply_constraints s = Ok tt s'
    /\ path_constraints (world s') = Some c
    /\ cartesian_constraints (self s') = Some (Some c)
    /\ orientation_constraints c
       = [mkOrientationConstraint "axis_6" "axis_0" q 0.1 0.1 0.1 1.0]
    /\ position_constraints c
       = [mkPositionConstraint "axis_6" "axis_0" (mkPoint 0 0 0.5) [region]]
    /\ type region = CYLINDER
    /\ List.length (dimensions region) = 2%nat
    /\ nth_error (dimensions region) CYLINDER_HEIGHT = Some 1
    /\ nth_error (dimensions region) CYLINDER_RADIUS = Some 0.01
    /\ max_velocity_scaling_factor (world s')
       = max_velocity_scaling_factor (world s)
    /\ max_acceleration_scaling_factor (world s')
       = max_acceleration_scaling_factor (world s)
    /\ scene_changes (trace (world s')) = scene_changes (trace (world s)).
Proof.
  unfold __apply_constraints, __get_orientation_constraints,
    __get_position_constraints, __get_relative_orientation.
  unfold_calls. run.
  eexists _, _, _, _, _.
  split; [reflexivity|]. split; [reflexivity|].
  cbn. repeat split.
Qed.

(** ** Further properties of the planning call *)

(** X8.  [plan_probing] does not change anything.  It either returns what
    the planner answers for the one waypoint or raises [AttributeError];
    either way the object, the scaling factors and the path constraints
    are what they were, no clock reading and no scene query has been
    consumed, and nothing was added to or removed from the scene. *)
Theorem plan_probing_changes_nothing (s : State) (z : Q) :
  exists s',
    (plan_probing z s = Raised (AttributeError "cartesian_constraints") s'
     \/ exists c,
          cartesian_constraints (self s) = Some c
          /\ plan_probing z s
             = Ok (cartesian_planner (env (world s))
                     (probing_waypoints (current_pose (env (world s)) default_link) z)
                     0.01 0.0 c) s')
    /\ kept s s'
    /\ time_reads (world s') = time_reads (world s)
    /\ polls (world s') = polls (world s)
    /\ scene_changes (trace (world s')) = scene_changes (trace (world s)).
Proof.
  destruct (cartesian_constraints (self s)) as [c|] eqn:Hc.
  - eexists. split.
    + right. exists c. split; [reflexivity|]. apply plan_probing_eq. exact Hc.
    + split; [constructor; reflexivity|]. repeat split.
  - exists (before_cartesian_path s). split.
    + left. apply plan_probing_unset. exact Hc.
    + split; [constructor; reflexivity|]. repeat split.
Qed.

(** ** Further properties of the scene operations *)

Lemma add_hollow_cylinder_eq fuel s :
  __add_hollow_cylinder fuel s
  = bind (__wait_for_state_update fuel (hollow_cylinder_name (self s)) true 4)
      (fun _ => ret tt) (after_add_mesh s).
Proof. reflexivity. Qed.

(** X9.  [__add_hollow_cylinder] works on a copy of the cylinder's pose.
    The one scene call it issues adds the mesh file of the package under
    the hollow cylinder's name, in the frame and at the place of the solid
    cylinder but 0.035 lower; [self.cylinder_pose] itself is not changed,
    so every call adds the mesh at the same place.  It returns (with
    nothing) whether or not the scene ever shows the mesh. *)
Theorem add_hollow_cylinder_lowers_a_copy (s : State) :
  clock_unbounded (env (world s)) ->
  exists b s_wait p s',
    returns (fun fuel => __wait_for_state_update fuel
                           (hollow_cylinder_name (self s)) true 4)
      (after_add_mesh s) b s_wait
    /\ returns __add_hollow_cylinder s tt s'
    /\ self s' = self s
    /\ scene_changes (trace (world s'))
       = EAddMesh (hollow_cylinder_name (self s)) p
           (os_path_join (package_path (env (world s)) "messtechnik_praktikum")
              "stl/hollow_cylinder.stl")
         :: scene_changes (trace (world s))
    /\ frame_id p = frame_id (cylinder_pose (self s))
    /\ px (position (pose p)) = px (position (pose (cylinder_pose (self s))))
    /\ py (position (pose p)) = py (position (pose (cylinder_pose (self s))))
    /\ pz (position (pose p))
       = pz (position (pose (cylinder_pose (self s)))) - 0.035
    /\ orientation (pose p) = orientation (pose (cylinder_pose (self s))).
Proof.
  intro Hc.
  destruct (wait_returns (hollow_cylinder_name (self s)) true 4 (after_add_mesh s) Hc)
    as (b & s' & Hw).
  pose proof (returns_quiet _ _ _ _ _ _ Hw) as [Hs _ _ _ _ (n & Hn & Hobs)].
  exists b, s'. eexists. exists s'.
  split; [exact Hw|]. split; [|split; [exact Hs|split]].
  - destruct Hw as [f0 Hw]. exists f0. intros fuel Hf.
    rewrite add_hollow_cylinder_eq. unfold bind. rewrite (Hw fuel Hf).
    reflexivity.
  - rewrite Hn, scene_changes_app, (observations_change_nothing _ Hobs).
    reflexivity.
  - repeat split.
Qed.

Lemma add_hollow_cylinder_lowers_a_copy_witness :
  exists b s_wait p s',
    returns (fun fuel => __wait_for_state_update fuel "hollow_cylinder" true 4)
      (after_add_mesh (lab_state empty_scene 0.8 1)) b s_wait
    /\ returns __add_hollow_cylinder (lab_state empty_scene 0.8 1) tt s'
    /\ self s' = constructed
    /\ scene_changes (trace (world s'))
       = EAddMesh "hollow_cylinder" p
           (os_path_join "/opt/ros/messtechnik_praktikum" "stl/hollow_cylinder.stl")
         :: []
    /\ frame_id p = "world"
    /\ px (position (pose p)) = 0.3
    /\ py (position (pose p)) = 0
    /\ pz (position (pose p)) = 0.035 - 0.035
    /\ orientation (pose p) = mkQuaternion 0 0 0 1.0.
Proof.
  apply (add_hollow_cylinder_lowers_a_copy (lab_state empty_scene 0.8 1)).
  apply lab_clock_unbounded.
Defined.

(** X10.  [__remove_hollow_cylinder] answers for the solid cylinder.  Its
    one scene call removes the hollow cylinder; the wait for the hollow
    cylinder to go is not looked at, and what it returns is the answer of a
    second wait, for the solid cylinder to be unknown.  So in a scene that
    knows the solid cylinder at every query it returns false. *)
Theorem remove_hollow_cylinder_answers_for_solid (s : State) :
  clock_unbounded (env (world s)) ->
  always_known (env (world s)) (cylinder_name (self s)) ->
  exists b1 s1 s',
    returns (fun fuel => __wait_for_state_update fuel
                           (hollow_cylinder_name (self s)) false 4)
      (after_remove_hollow_call s) b1 s1
    /\ returns (fun fuel => __wait_for_state_update fuel (cylinder_name (self s))
                              false 4) s1 false s'
    /\ returns __remove_hollow_cylinder s false s'
    /\ scene_changes (trace (world s'))
       = ERemoveWorldObject (hollow_cylinder_name (self s))
         :: scene_changes (trace (world s)).
Proof.
  intros Hc Hknown.
  destruct (remove_hollow_cylinder_returns s Hc)
    as (b1 & s1 & b & s' & Hw1 & Hw2 & Hrun).
  pose proof (returns_quiet _ _ _ _ _ _ Hw1) as [_ He1 _ _ _ (n1 & Hn1 & Hobs1)].
  pose proof (returns_quiet _ _ _ _ _ _ Hw2) as [_ _ _ _ _ (n2 & Hn2 & Hobs2)].
  assert (Hb : b = false).
  { destruct Hw2 as [f2 Hw2].
    eapply never_observed_false; [|apply (Hw2 f2); lia].
    intros k Hk. unfold observed in Hk. rewrite He1 in Hk. cbn in Hk.
    rewrite Hknown in Hk. discriminate. }
  subst b. exists b1, s1, s'.
  split; [exact Hw1|]. split; [exact Hw2|]. split; [exact Hrun|].
  rewrite Hn2, scene_changes_app, (observations_change_nothing _ Hobs2).
  rewrite Hn1, scene_changes_app, (observations_change_nothing _ Hobs1).
  reflexivity.
Qed.

Lemma remove_hollow_cylinder_answers_for_solid_witness :
  exists b1 s1 s',
    returns (fun fuel => __wait_for_state_update fuel "hollow_cylinder" false 4)
      (after_remove_hollow_call (lab_state (fun _ => ["full_cylinder"]) 0.01 0.1))
      b1 s1
    /\ returns (fun fuel => __wait_for_state_update fuel "full_cylinder" false 4)
         s1 false s'
    /\ returns __remove_hollow_cylinder
         (lab_state (fun _ => ["full_cylinder"]) 0.01 0.1) false s'
    /\ scene_changes (trace (world s'))
       = ERemoveWorldObject "hollow_cylinder" :: [].
Proof.
  apply (remove_hollow_cylinder_answers_for_solid
           (lab_state (fun _ => ["full_cylinder"]) 0.01 0.1)).
  - apply lab_clock_unbounded.
  - intro k. reflexivity.
Defined.

Lemma disable_probing_never_raises fuel s e s' :
  disable_probing fuel s <> Raised e s'.
Proof.
  unfold disable_probing, __add_cylinder, __remove_hollow_cylinder,
    __clear_constraints.
  unfold_calls. run.
  apply bind_wait_never_raises. intros b1 s1 e1 s1'. run.
  apply bind_wait_never_raises. intros b2 s2 e2 s2'. run.
  apply bind_wait_never_raises. intros b3 s3 e3 s3'. run.
  discriminate.
Qed.

(** X11.  The scene calls of [disable_probing].  In every scene it raises
    nothing and returns, having issued exactly two scene changes, in this
    order: the solid cylinder is added, then the hollow cylinder is
    removed -- whether or not the solid cylinder was ever seen. *)
Theorem disable_probing_scene_changes (s : State) :
  clock_unbounded (env (world s)) ->
  exists s',
    returns disable_probing s tt s'
    /\ (forall fuel e s'', disable_probing fuel s <> Raised e s'')
    /\ scene_changes (trace (world s'))
       = ERemoveWorldObject (hollow_cylinder_name (self s))
         :: EAddCylinder (cylinder_name (self s)) (cylinder_pose (self s))
              (cylinder_height (self s)) (cylinder_radius (self s))
         :: scene_changes (trace (world s)).
Proof.
  intro Hc.
  destruct (disable_probing_returns s Hc)
    as (b1 & s1 & b2 & s2 & b3 & s3 & Hw1 & Hw2 & Hw3 & Hrun).
  pose proof (returns_quiet _ _ _ _ _ _ Hw1) as [_ _ _ _ _ (n1 & Hn1 & Hobs1)].
  pose proof (returns_quiet _ _ _ _ _ _ Hw2) as [_ _ _ _ _ (n2 & Hn2 & Hobs2)].
  pose proof (returns_quiet _ _ _ _ _ _ Hw3) as [_ _ _ _ _ (n3 & Hn3 & Hobs3)].
  eexists. split; [exact Hrun|].
  split; [intros fuel e s''; apply disable_probing_never_raises|].
  cbn [set_scaling after_clear_constraints world trace record with_acceleration
         with_velocity with_path_constraints].
  unfold scene_changes at 1. cbn [filter scene_change].
  change (filter scene_change (trace (world s3)))
    with (scene_changes (trace (world s3))).
  rewrite Hn3, scene_changes_app, (observations_change_nothing _ Hobs3).
  rewrite Hn2, scene_changes_app, (observations_change_nothing _ Hobs2).
  cbn [world trace record app]. unfold scene_changes at 1.
  cbn [filter scene_change].
  change (filter scene_change (trace (world s1)))
    with (scene_changes (trace (world s1))).
  rewrite Hn1, scene_changes_app, (observations_change_nothing _ Hobs1).
  reflexivity.
Qed.

Lemma disable_probing_scene_changes_witness :
  exists s',
    returns disable_probing (lab_state empty_scene 0.01 0.1) tt s'
    /\ (forall fuel e s'',
          disable_probing fuel (lab_state empty_scene 0.01 0.1) <> Raised e s'')
    /\ scene_changes (trace (world s'))
       = ERemoveWorldObject "hollow_cylinder"
         :: EAddCylinder "full_cylinder" (cylinder_pose constructed) 0.08 0.04
         :: [].
Proof.
  apply (disable_probing_scene_changes (lab_state empty_scene 0.01 0.1)).
  apply lab_clock_unbounded.
Defined.

(** ** Further properties of the helper as a whole *)

(** X12.  Both positions of the probing switch leave
    [self.cartesian_constraints] equal to the path constraints of the move
    group, from whatever state they are called: a constraint set after
    [enable_probing], none after [disable_probing]. *)
Theorem probing_switch_syncs_constraints (s : State) :
  clock_unbounded (env (world s)) ->
  (exists c s',
     returns enable_probing s tt s'
     /\ path_constraints (world s') = Some c /\ in_sync s')
  /\ (exists s',
        returns disable_probing s tt s'
        /\ path_constraints (world s') = None /\ in_sync s').
Proof.
  intro Hc. split.
  - destruct (enable_probing_result s Hc)
      as (c & _ & _ & _ & _ & _ & _ & _ & s'
          & Hrun & (Hself & _ & Hpc & _) & _).
    exists c, s'. split; [exact Hrun|]. split; [exact Hpc|].
    unfold in_sync. rewrite Hself, Hpc. reflexivity.
  - destruct (disable_probing_result s Hc)
      as (s' & Hrun & Hself & _ & Hpc & _).
    exists s'. split; [exact Hrun|]. split; [exact Hpc|].
    unfold in_sync. rewrite Hself, Hpc. reflexivity.
Qed.

Lemma probing_switch_syncs_constraints_witness :
  (exists c s',
     returns enable_probing (lab_state full_scene 0.8 1) tt s'
     /\ path_constraints (world s') = Some c /\ in_sync s')
  /\ (exists s',
        returns disable_probing (lab_state full_scene 0.8 1) tt s'
        /\ path_constraints (world s') = None /\ in_sync s').
Proof.
  apply (probing_switch_syncs_constraints (lab_state full_scene 0.8 1)).
  apply lab_clock_unbounded.
Defined.

(** X13.  Once the attribute and the move group agree, [plan_probing]
    plans under the constraints that are active in the move group: it
    returns what the planner answers for the single waypoint, step 0.01
    and jump threshold 0 under these constraints, and the two still agree
    afterwards. *)
Theorem plan_probing_uses_active_constraints (s : State) (z : Q) :
  in_sync s ->
  exists s',
    plan_probing z s
    = Ok (cartesian_planner (env (world s))
            (probing_waypoints (current_pose (env (world s)) default_link) z)
            0.01 0.0 (path_constraints (world s))) s'
    /\ in_sync s'
    /\ path_constraints (world s') = path_constraints (world s).
Proof.
  intro Hsync. rewrite (plan_probing_eq z s _ Hsync).
  eexists. split; [reflexivity|]. split; [exact Hsync|reflexivity].
Qed.

Lemma plan_probing_uses_active_constraints_witness :
  exists s',
    plan_probing (-0.06) (lab_state_cleared full_scene 0.8 1)
    = Ok (cartesian_planner (env (world (lab_state_cleared full_scene 0.8 1)))
            (probing_waypoints
               (current_pose (env (world (lab_state_cleared full_scene 0.8 1)))
                  default_link) (-0.06))
            0.01 0.0 None) s'
    /\ in_sync s'
    /\ path_constraints (world s') = None.
Proof.
  apply (plan_probing_uses_active_constraints
           (lab_state_cleared full_scene 0.8 1) (-0.06)).
  reflexivity.
Defined.

Lemma init_eq fuel w :
  __init__ fuel (mkState blank w)
  = bind (__add_cylinder fuel 10) (fun _ => ret tt) (after_init_calls w).
Proof. reflexivity. Qed.

Lemma init_returns w :
  clock_unbounded (env w) ->
  exists b s,
    returns (fun fuel => __wait_for_state_update fuel "full_cylinder" true 10)
      (after_add_cylinder (after_init_calls w)) b s
    /\ returns __init__ (mkState blank w) tt s.
Proof.
  intro Hc.
  destruct (add_cylinder_returns 10 (after_init_calls w) Hc) as (b & s & Hw & Hadd).
  exists b, s. split; [exact Hw|].
  destruct Hadd as [f0 Hadd]. exists f0. intros fuel Hf.
  rewrite init_eq. unfold bind. rewrite (Hadd fuel Hf). reflexivity.
Qed.

(** X14.  The constructor.  In every world whose clock passes every
    deadline [MoveGroupHelper()] returns -- it does not look at the answer
    of its ten-second wait -- with the planning frame and end-effector link
    of the move group, the pose of the robot at that time as start pose,
    the solid cylinder of height 0.08 and radius 0.04 at (0.3, 0, 0.035) in
    the world frame, and no attribute [cartesian_constraints].  Its one
    scene change is the adding of that cylinder; the scaling factors and
    the path constraints of the move group are not touched. *)
Theorem init_builds_the_helper (w : World) :
  clock_unbounded (env w) ->
  exists s,
    returns __init__ (mkState blank w) tt s
    /\ self s = initial_self w
    /\ scene_changes (trace (world s))
       = EAddCylinder "full_cylinder"
           (mkPoseStamped "world"
              (mkPose (mkPoint 0.3 0 0.035) (mkQuaternion 0 0 0 1.0)))
           0.08 0.04
         :: scene_changes (trace w)
    /\ max_velocity_scaling_factor (world s) = max_velocity_scaling_factor w
    /\ max_acceleration_scaling_factor (world s)
       = max_acceleration_scaling_factor w
    /\ path_constraints (world s) = path_constraints w.
Proof.
  intro Hc.
  destruct (init_returns w Hc) as (b & s & Hw & Hrun).
  pose proof (returns_quiet _ _ _ _ _ _ Hw) as [Hs _ Hv Ha Hp (n & Hn & Hobs)].
  exists s. split; [exact Hrun|]. split; [exact Hs|].
  split; [|split; [exact Hv|split; [exact Ha|exact Hp]]].
  rewrite Hn, scene_changes_app, (observations_change_nothing _ Hobs).
  reflexivity.
Qed.

Lemma init_builds_the_helper_witness :
  exists s,
    returns __init__ (mkState blank (lab_world empty_scene 0.8 1)) tt s
    /\ self s = constructed
    /\ scene_changes (trace (world s))
       = EAddCylinder "full_cylinder"
           (mkPoseStamped "world"
              (mkPose (mkPoint 0.3 0 0.035) (mkQuaternion 0 0 0 1.0)))
           0.08 0.04
         :: []
    /\ max_velocity_scaling_factor (world s) = 0.8
    /\ max_acceleration_scaling_factor (world s) = 1
    /\ path_constraints (world s) = None.
Proof.
  apply (init_builds_the_helper (lab_world empty_scene 0.8 1)).
  apply lab_clock_unbounded.
Defined.

(** X15.  A fresh helper can plan once [disable_probing] has run.  The
    constructor followed by [disable_probing] and [plan_probing] goes
    through in every world whose clock passes every deadline: the plan is
    what the planner answers under no path constraint. *)
Theorem fresh_helper_plans_after_disable (w : World) (z : Q) :
  clock_unbounded (env w) ->
  exists s0 s1 s2,
    returns __init__ (mkState blank w) tt s0
    /\ returns disable_probing s0 tt s1
    /\ plan_probing z s1
       = Ok (cartesian_planner (env w)
               (probing_waypoints (current_pose (env w) default_link) z)
               0.01 0.0 None) s2
    /\ max_velocity_scaling_factor (world s2) = 0.8
    /\ max_acceleration_scaling_factor (world s2) = 1.
Proof.
  intro Hc.
  destruct (init_returns w Hc) as (b & s0 & Hw & Hinit).
  pose proof (returns_quiet _ _ _ _ _ _ Hw) as [_ He0 _ _ _ _].
  cbn in He0.
  assert (Hc0 : clock_unbounded (env (world s0))) by (rewrite He0; exact Hc).
  destruct (disable_probing_result s0 Hc0)
    as (s1 & Hrun & Hself & He1 & Hpc & Hv & Ha).
  assert (Hattr : cartesian_constraints (self s1) = Some None)
    by (rewrite Hself; reflexivity).
  exists s0, s1. eexists.
  split; [exact Hinit|]. split; [exact Hrun|].
  rewrite (plan_probing_eq z s1 None Hattr), He1, He0.
  split; [reflexivity|]. split; assumption.
Qed.

Lemma fresh_helper_plans_after_disable_witness :
  exists s0 s1 s2,
    returns __init__ (mkState blank (lab_world full_scene 0.5 0.5)) tt s0
    /\ returns disable_probing s0 tt s1
    /\ plan_probing (-0.06) s1
       = Ok (cartesian_planner (lab_env full_scene)
               (probing_waypoints (current_pose (lab_env full_scene) default_link)
                  (-0.06))
               0.01 0.0 None) s2
    /\ max_velocity_scaling_factor (world s2) = 0.8
    /\ max_acceleration_scaling_factor (world s2) = 1.
Proof.
  apply (fresh_helper_plans_after_disable (lab_world full_scene 0.5 0.5) (-0.06)).
  apply lab_clock_unbounded.
Defined.
